(** * fullerite: the SignalFx handler (src/fullerite/handler/signalfx.go)

    A shallow embedding of the handler's encoder ([convertToProto]), its
    transport ([emitMetrics]) and its batching loop ([Run]), and the
    properties of the handler's specification settled against it.

    Modelling conventions.
    - [time.Time] is a reading of the monotonic clock in nanoseconds (a [Z]);
      [time.Duration] is a number of nanoseconds.
    - [float64] values are exact rationals ([Q]); rounding is not modelled.
      The only comparison of floats in the handler is
      [d.Seconds() >= float64(interval)], which rounding can change only for
      durations of several months.
    - Optional protobuf fields (Go pointers that may be nil) are [option]s.
    - The outside world (clock, protobuf library, network) is an explicit
      input: every iteration of [Run] receives a [Tick] with the values the
      world hands to that iteration.
    - Logging and HTTP traffic are recorded as a list of [Event]s. *)

From Stdlib Require Import ZArith QArith List Ascii String Bool Lia.
From stdpp Require Import base gmap strings list.
Import ListNotations.

Local Open Scope string_scope.
Local Open Scope Z_scope.
Local Open Scope list_scope.

(** ** Package [metric] *)

Module metric.

(** Modelled from the spec: the constants [metric.Gauge], [metric.Counter]
    and [metric.CumulativeCounter] of package [metric], which is not part of
    the sources at hand.  The three constants label the cases of one Go
    [switch], so they are pairwise distinct; [OtherType] stands for every
    value of the field that is none of them. *)
Inductive Kind : Type :=
| Gauge
| Counter
| CumulativeCounter
| OtherType (tag : string).

(** Modelled from the spec: [Metric{name, value, type, dimensions}]. *)
Record Metric : Type := {
  Name : string;
  MetricType : Kind;
  Value : Q;
  Dimensions : gmap string string
}.

(** Modelled from the spec: [GetDimensions] of package [metric] merges the
    metric's dimensions with the defaults, the metric's own taking
    precedence on a key collision ([∪] on [gmap] is left-biased). *)
Definition GetDimensions (m : Metric) (defaults : gmap string string)
  : gmap string string :=
  Dimensions m ∪ defaults.

End metric.

(** ** Wire format (the generated protobuf messages) *)

(** The values of the protobuf enum [MetricType] that the handler names. *)
Inductive MetricType : Type :=
| MetricType_GAUGE
| MetricType_COUNTER
| MetricType_CUMULATIVE_COUNTER.

Record Datum : Type := { DoubleValue : option Q }.

Record Dimension : Type := {
  Key : option string;
  DimValue : option string   (* field [Value] of message [Dimension] *)
}.

Record DataPoint : Type := {
  Source : option string;
  Metric : option string;
  Value : option Datum;
  DPMetricType : option MetricType;   (* field [MetricType] of [DataPoint] *)
  Dimensions : list Dimension
}.

Record DataPointUploadMessage : Type := { Datapoints : list DataPoint }.

(** ** The handler *)

(** [SignalFx] with the fields of the embedded [BaseHandler] that this file
    reads or writes.  Modelled from the spec: [BaseHandler] is declared
    elsewhere; its fields are the configuration
    [{interval, maxBufferSize, timeout}], the prefix and default dimensions
    used by the encoder, and the [EmitterState]
    [{sentCount, droppedCount, emissionDurations}]. *)
Record SignalFx : Type := {
  name : string;
  interval : Z;                        (* seconds *)
  maxBufferSize : Z;
  timeout : Z;                         (* nanoseconds *)
  prefix : string;
  defaultDimensions : gmap string string;
  emissionTimes : list Q;
  metricsSent : Z;
  metricsDropped : Z;
  endpoint : string;
  authToken : string
}.

(** Endpoint returns SignalFx' API endpoint *)
Definition Endpoint (s : SignalFx) : string := endpoint s.

(** Modelled from the spec: the accessors of [BaseHandler]. *)
Definition Prefix (s : SignalFx) : string := prefix s.
Definition DefaultDimensions (s : SignalFx) : gmap string string :=
  defaultDimensions s.

Definition set_emissionTimes (l : list Q) (s : SignalFx) : SignalFx :=
  {| name := name s; interval := interval s; maxBufferSize := maxBufferSize s;
     timeout := timeout s; prefix := prefix s;
     defaultDimensions := defaultDimensions s;
     emissionTimes := l;
     metricsSent := metricsSent s; metricsDropped := metricsDropped s;
     endpoint := endpoint s; authToken := authToken s |}.

Definition set_metricsSent (n : Z) (s : SignalFx) : SignalFx :=
  {| name := name s; interval := interval s; maxBufferSize := maxBufferSize s;
     timeout := timeout s; prefix := prefix s;
     defaultDimensions := defaultDimensions s;
     emissionTimes := emissionTimes s;
     metricsSent := n; metricsDropped := metricsDropped s;
     endpoint := endpoint s; authToken := authToken s |}.

Definition set_metricsDropped (n : Z) (s : SignalFx) : SignalFx :=
  {| name := name s; interval := interval s; maxBufferSize := maxBufferSize s;
     timeout := timeout s; prefix := prefix s;
     defaultDimensions := defaultDimensions s;
     emissionTimes := emissionTimes s;
     metricsSent := metricsSent s; metricsDropped := n;
     endpoint := endpoint s; authToken := authToken s |}.

(** Modelled from the spec: the reset helpers of [BaseHandler]
    ([SelfMetricsTracker]): the duration list is cleared, each counter is
    reset to zero. *)
Definition resetEmissionTimes (s : SignalFx) : SignalFx :=
  set_emissionTimes [] s.
Definition resetMetricsSent (s : SignalFx) : SignalFx :=
  set_metricsSent 0 s.
Definition resetMetricsDropped (s : SignalFx) : SignalFx :=
  set_metricsDropped 0 s.

(** *** Encoder *)

(** The body of the loop over the merged dimensions: one fresh [Dimension]
    per key/value pair. *)
Definition mkDimension (kv : string * string) : Dimension :=
  {| Key := Some (fst kv); DimValue := Some (snd kv) |}.

(** Go leaves the order of [range] over a map unspecified; the model visits
    the pairs in the order of [map_to_list].  No property below depends on
    that order. *)
Definition convertToProto (s : SignalFx) (incomingMetric : metric.Metric)
  : DataPoint :=
  let outname := Prefix s +:+ metric.Name incomingMetric in
  let value := metric.Value incomingMetric in
  let dimensions :=
    metric.GetDimensions incomingMetric (DefaultDimensions s) in
  {| Metric := Some outname;
     Value := Some {| DoubleValue := Some value |};
     Source := Some "fullerite";
     DPMetricType :=
       match metric.MetricType incomingMetric with
       | metric.Gauge => Some MetricType_GAUGE
       | metric.Counter => Some MetricType_COUNTER
       | metric.CumulativeCounter => Some MetricType_CUMULATIVE_COUNTER
       | metric.OtherType _ => None
       end;
     Dimensions := map mkDimension (map_to_list dimensions) |}.

(** ** The outside world *)

(** [time.Time], [time.Duration], [time.Since]/[Sub] and [Seconds]. *)
Definition Time : Type := Z.
Definition Duration : Type := Z.

Definition Sub (t u : Time) : Duration := t - u.
Definition Seconds (d : Duration) : Q := d # 1000000000.

(** An HTTP request as the handler builds it, and the part of the response
    the handler reads. *)
Record Request : Type := {
  Method : string;
  URL : string;
  Header : list (string * string);
  ReqBody : list Byte.byte
}.

Record Response : Type := {
  Status : string;      (* e.g. "200 OK" *)
  Body : string
}.

(** [Header.Set]: the value replaces whatever the key had. *)
Definition Header_Set (k v : string) (req : Request) : Request :=
  {| Method := Method req; URL := URL req;
     Header :=
       filter (fun kv => negb (String.eqb (fst kv) k)) (Header req)
         ++ [(k, v)];
     ReqBody := ReqBody req |}.

Inductive DoResult : Type :=
| DoError (err : string)
| DoResponse (rsp : Response).

(** What the libraries and the network answer during one call of
    [emitMetrics]: the result of [proto.Marshal], whether [http.NewRequest]
    accepts the URL, and the result of [client.Do]. *)
Record Net : Type := {
  proto_Marshal : DataPointUploadMessage -> option (list Byte.byte);
  url_accepted : string -> bool;
  client_Do : Request -> DoResult
}.

Definition http_NewRequest (net : Net) (method url : string)
    (body : list Byte.byte) : option Request :=
  if url_accepted net url
  then Some {| Method := method; URL := url; Header := []; ReqBody := body |}
  else None.

(** The status code of a response, as [net/http] derives it from the status
    text when it reads the response: the text in front of the first space
    must be three characters long and is read as a decimal number. *)
Fixpoint status_token (st : string) : string :=
  match st with
  | EmptyString => EmptyString
  | String c rest =>
      if Ascii.eqb c " "%char then EmptyString
      else String c (status_token rest)
  end.

Fixpoint atoi (digits : string) (acc : Z) : option Z :=
  match digits with
  | EmptyString => Some acc
  | String c rest =>
      let n := Z.of_nat (Ascii.nat_of_ascii c) in
      if (48 <=? n)%Z && (n <=? 57)%Z
      then atoi rest (10 * acc + (n - 48))
      else None
  end.

Definition StatusCode (rsp : Response) : option Z :=
  let statusCode := status_token (Status rsp) in
  if (String.length statusCode =? 3)%nat then atoi statusCode 0 else None.

(** ** Events: log lines and HTTP traffic *)

Inductive Level : Type := DebugLevel | InfoLevel | WarnLevel | ErrorLevel.

(** One constructor per logging call of the file. *)
Inductive LogEntry : Type :=
| Debug_datapoint (dp : DataPoint)
| Info_post_took (seconds : Q)
| Info_starting (n : nat)
| Warn_empty_payload
| Warn_missing_config (payload : DataPointUploadMessage)
| Error_serialize (payload : DataPointUploadMessage)
| Error_create_request (endpoint : string)
| Error_post (err : string)
| Error_rejected (endpoint status body : string)
    (payload : DataPointUploadMessage)
| Info_sent (n : nat).

Definition level (e : LogEntry) : Level :=
  match e with
  | Debug_datapoint _ => DebugLevel
  | Info_post_took _ | Info_starting _ | Info_sent _ => InfoLevel
  | Warn_empty_payload | Warn_missing_config _ => WarnLevel
  | Error_serialize _ | Error_create_request _ | Error_post _
  | Error_rejected _ _ _ _ => ErrorLevel
  end.

Inductive Event : Type :=
| Log (e : LogEntry)
| HttpDo (req : Request).     (* [client.Do(req)]: a request leaves *)

Definition is_HttpDo (e : Event) : bool :=
  match e with HttpDo _ => true | Log _ => false end.

Definition is_error (e : Event) : bool :=
  match e with
  | Log l => match level l with ErrorLevel => true | _ => false end
  | HttpDo _ => false
  end.

(** The requests issued in a trace of events. *)
Definition requests (evs : list Event) : list Request :=
  omap (fun e => match e with HttpDo r => Some r | Log _ => None end) evs.

(** *** Transport *)

(** [emitMetrics] has a pointer receiver: it returns the handler as it leaves
    it, together with the events of the call. *)
Definition emitMetrics (s : SignalFx) (datapoints : list DataPoint)
    (net : Net) : SignalFx * list Event :=
  let starting := Log (Info_starting (length datapoints)) in
  if (length datapoints =? 0)%nat then
    (s, [starting; Log Warn_empty_payload])
  else
    let payload := {| Datapoints := datapoints |} in
    if String.eqb (authToken s) "" || String.eqb (endpoint s) "" then
      (s, [starting; Log (Warn_missing_config payload)])
    else
      match proto_Marshal net payload with
      | None => (s, [starting; Log (Error_serialize payload)])
      | Some serialized =>
          match http_NewRequest net "POST" (endpoint s) serialized with
          | None => (s, [starting; Log (Error_create_request (endpoint s))])
          | Some req =>
              let req := Header_Set "X-SF-TOKEN" (authToken s) req in
              let req :=
                Header_Set "Content-Type" "application/x-protobuf" req in
              match client_Do net req with
              | DoError err =>
                  (s, [starting; HttpDo req; Log (Error_post err)])
              | DoResponse rsp =>
                  if negb (String.eqb (Status rsp) "200 OK") then
                    (s, [starting; HttpDo req;
                         Log (Error_rejected (endpoint s) (Status rsp)
                                (Body rsp) payload)])
                  else
                    (s, [starting; HttpDo req;
                         Log (Info_sent (length datapoints))])
              end
          end
      end.

(** ** The batching loop *)

(** The local variables of [Run] that live across iterations, with the
    handler they act on. *)
Record RunState : Type := {
  handler : SignalFx;
  datapoints : list DataPoint;
  lastEmission : Time;
  lastHandlerMetricsEmission : Time
}.

(** What the world hands to one iteration: the metric received from the
    channel, the five readings of the clock the iteration may take (in
    program order), and the answers of the libraries and the network should
    the iteration emit. *)
Record Tick : Type := {
  incomingMetric : metric.Metric;
  now_emit_check : Time;       (* [time.Since(lastEmission)] *)
  now_handler_check : Time;    (* [time.Since(lastHandlerMetricsEmission)] *)
  now_handler_reset : Time;    (* [lastHandlerMetricsEmission = time.Now()] *)
  now_before : Time;           (* [beforeEmission := time.Now()] *)
  now_after : Time;            (* [lastEmission = time.Now()] *)
  net : Net
}.

(** What one iteration did: its events, whether the handler's own metrics
    were appended, and the batch handed to [emitMetrics], if any. *)
Record StepOut : Type := {
  events : list Event;
  selfReported : bool;
  emitted : option (list DataPoint)
}.

(** [time.Since(last).Seconds() >= float64(s.interval)] at clock reading
    [now]. *)
Definition intervalPassed (s : SignalFx) (now last : Time) : bool :=
  Qle_bool (inject_Z (interval s)) (Seconds (Sub now last)).

(** The conditions an iteration evaluates, as functions of the state the
    iteration starts in and of its tick (the locals of the same names). *)
Definition arrived (st : RunState) (tk : Tick) : list DataPoint :=
  datapoints st ++ [convertToProto (handler st) (incomingMetric tk)].

Definition emitIntervalPassed (st : RunState) (tk : Tick) : bool :=
  intervalPassed (handler st) (now_emit_check tk) (lastEmission st).

Definition emitHandlerIntervalPassed (st : RunState) (tk : Tick) : bool :=
  intervalPassed (handler st) (now_handler_check tk)
    (lastHandlerMetricsEmission st).

Definition bufferSizeLimitReached (st : RunState) (tk : Tick) : bool :=
  (maxBufferSize (handler st) <=? Z.of_nat (length (arrived st tk)))%Z.

Definition doEmit (st : RunState) (tk : Tick) : bool :=
  emitIntervalPassed st tk || bufferSizeLimitReached st tk.

(** A clock that never runs backwards: the readings of the ticks, in program
    order, do not decrease, starting from reading [t]. *)
Fixpoint clock_monotone (t : Time) (channel : list Tick) : bool :=
  match channel with
  | [] => true
  | tk :: rest =>
      (t <=? now_emit_check tk)%Z
      && (now_emit_check tk <=? now_handler_check tk)%Z
      && (now_handler_check tk <=? now_handler_reset tk)%Z
      && (now_handler_reset tk <=? now_before tk)%Z
      && (now_before tk <=? now_after tk)%Z
      && clock_monotone (now_after tk) rest
  end.

Section Run.

(** The three metrics the handler reports about itself are built by
    [BaseHandler], which is declared elsewhere: the builders are taken as
    they come, as functions of the handler. *)
Variable makeEmissionTimeMetric : SignalFx -> metric.Metric.
Variable makeMetricsSentMetric : SignalFx -> metric.Metric.
Variable makeMetricsDroppedMetric : SignalFx -> metric.Metric.

(** The block guarded by [emitHandlerIntervalPassed], after the clock
    anchor has been moved. *)
Definition reportHandlerMetrics (s : SignalFx) (dps : list DataPoint)
  : SignalFx * list DataPoint :=
  (* Report HandlerEmitTiming *)
  let m := makeEmissionTimeMetric s in
  let s := resetEmissionTimes s in
  let dps := dps ++ [convertToProto s m] in
  (* Report metrics sent *)
  let metricsSent := makeMetricsSentMetric s in
  let s := resetMetricsSent s in
  let dps := dps ++ [convertToProto s metricsSent] in
  (* Report dropped metrics *)
  let metricsDropped := makeMetricsDroppedMetric s in
  let s := resetMetricsDropped s in
  let dps := dps ++ [convertToProto s metricsDropped] in
  (s, dps).

(** The block guarded by [doEmit]. *)
Definition emitAndReset (s : SignalFx) (dps : list DataPoint) (tk : Tick)
  : SignalFx * list DataPoint * Time * list Event :=
  let beforeEmission := now_before tk in
  let '(s, evs) := emitMetrics s dps (net tk) in
  let lastEmission := now_after tk in
  let emissionTimeInSeconds := Seconds (Sub lastEmission beforeEmission) in
  let s := set_emissionTimes (emissionTimes s ++ [emissionTimeInSeconds]) s in
  (s, [], lastEmission, evs ++ [Log (Info_post_took emissionTimeInSeconds)]).

(** One iteration of the loop of [Run]. *)
Definition Run_body (st : RunState) (tk : Tick) : RunState * StepOut :=
  let s := handler st in
  let datapoint := convertToProto s (incomingMetric tk) in
  let dps := datapoints st ++ [datapoint] in
  let emitIntervalPassed :=
    intervalPassed s (now_emit_check tk) (lastEmission st) in
  let emitHandlerIntervalPassed :=
    intervalPassed s (now_handler_check tk)
      (lastHandlerMetricsEmission st) in
  let bufferSizeLimitReached :=
    (maxBufferSize s <=? Z.of_nat (length dps))%Z in
  let doEmit := emitIntervalPassed || bufferSizeLimitReached in
  let '(s, dps, lastHandler) :=
    if emitHandlerIntervalPassed
    then
      let '(s, dps) := reportHandlerMetrics s dps in
      (s, dps, now_handler_reset tk)
    else (s, dps, lastHandlerMetricsEmission st) in
  if doEmit then
    let '(s, fresh, lastEmission, evs) := emitAndReset s dps tk in
    ({| handler := s; datapoints := fresh; lastEmission := lastEmission;
        lastHandlerMetricsEmission := lastHandler |},
     {| events := Log (Debug_datapoint datapoint) :: evs;
        selfReported := emitHandlerIntervalPassed;
        emitted := Some dps |})
  else
    ({| handler := s; datapoints := dps; lastEmission := lastEmission st;
        lastHandlerMetricsEmission := lastHandler |},
     {| events := [Log (Debug_datapoint datapoint)];
        selfReported := emitHandlerIntervalPassed;
        emitted := None |}).

(** The handler and the buffer as they stand when the iteration reaches
    the test of [doEmit]. *)
Definition handler_at_emit (st : RunState) (tk : Tick) : SignalFx :=
  if emitHandlerIntervalPassed st tk
  then fst (reportHandlerMetrics (handler st) (arrived st tk))
  else handler st.

Definition batch_at_emit (st : RunState) (tk : Tick) : list DataPoint :=
  if emitHandlerIntervalPassed st tk
  then snd (reportHandlerMetrics (handler st) (arrived st tk))
  else arrived st tk.

(** The loop over the metrics received from the channel. *)
Fixpoint Run_loop (st : RunState) (channel : list Tick)
  : RunState * list StepOut :=
  match channel with
  | [] => (st, [])
  | tk :: rest =>
      let '(st, out) := Run_body st tk in
      let '(st, outs) := Run_loop st rest in
      (st, out :: outs)
  end.

(** The state in which the loop is entered at clock reading [t0].
    [make([]*DataPoint, 0, s.maxBufferSize)] panics on a negative
    capacity. *)
Definition Run_init (s : SignalFx) (t0 : Time) : option RunState :=
  if (maxBufferSize s <? 0)%Z then None
  else Some {| handler := s; datapoints := []; lastEmission := t0;
               lastHandlerMetricsEmission := t0 |}.

(** [Run] on the metrics received before the channel is closed. *)
Definition Run (s : SignalFx) (t0 : Time) (channel : list Tick)
  : option (RunState * list StepOut) :=
  match Run_init s t0 with
  | None => None
  | Some st => Some (Run_loop st channel)
  end.

(** The states of the loop between two iterations. *)
Inductive reachable (s : SignalFx) (t0 : Time) : RunState -> Prop :=
| reachable_init st :
    Run_init s t0 = Some st -> reachable s t0 st
| reachable_step st tk :
    reachable s t0 st -> reachable s t0 (fst (Run_body st tk)).

(** The batches handed to [emitMetrics] during a run, in order. *)
Definition flushes (outs : list StepOut) : list (list DataPoint) :=
  omap emitted outs.

(** All events of a run, in order. *)
Definition trace (outs : list StepOut) : list Event :=
  concat (map events outs).

End Run.

(** The configuration is the same in every state of a run. *)
Definition same_config (s s' : SignalFx) : Prop :=
  interval s' = interval s /\ maxBufferSize s' = maxBufferSize s
  /\ authToken s' = authToken s /\ endpoint s' = endpoint s
  /\ prefix s' = prefix s /\ defaultDimensions s' = defaultDimensions s.

(** ** Scenarios

    Concrete handlers, metrics and worlds on which the definitions above are
    evaluated. *)
Module Scenario.

Definition handler_with (maxBuf : Z) (token : string) : SignalFx :=
  {| name := "SignalFx"; interval := 1; maxBufferSize := maxBuf;
     timeout := 2000000000; prefix := "fullerite.";
     defaultDimensions := {[ "host" := "web1" ]};
     emissionTimes := []; metricsSent := 0; metricsDropped := 0;
     endpoint := "https://ingest.example/v2/datapoint";
     authToken := token |}.

Definition gauge (n : string) : metric.Metric :=
  {| metric.Name := n; metric.MetricType := metric.Gauge;
     metric.Value := 1 # 1; metric.Dimensions := ∅ |}.

(** Builders for the handler's own metrics. *)
Definition timing (s : SignalFx) : metric.Metric :=
  {| metric.Name := "HandlerEmitTiming"; metric.MetricType := metric.Gauge;
     metric.Value := fold_right Qplus (0 # 1) (emissionTimes s);
     metric.Dimensions := ∅ |}.
Definition sent (s : SignalFx) : metric.Metric :=
  {| metric.Name := "MetricsSent"; metric.MetricType := metric.Counter;
     metric.Value := inject_Z (metricsSent s); metric.Dimensions := ∅ |}.
Definition dropped (s : SignalFx) : metric.Metric :=
  {| metric.Name := "MetricsDropped"; metric.MetricType := metric.Counter;
     metric.Value := inject_Z (metricsDropped s);
     metric.Dimensions := ∅ |}.

(** A backend that answers every request with the given status and body. *)
Definition backend (status body : string) : Net :=
  {| proto_Marshal := fun _ => Some [];
     url_accepted := fun _ => true;
     client_Do := fun _ => DoResponse {| Status := status; Body := body |} |}.

Definition ms : Z := 1000000.

(** A tick whose clock readings all are [t] milliseconds. *)
Definition tick_at (t : Z) (n : string) : Tick :=
  {| incomingMetric := gauge n;
     now_emit_check := t * ms; now_handler_check := t * ms;
     now_handler_reset := t * ms; now_before := t * ms;
     now_after := t * ms; net := backend "200 OK" "" |}.

Definition run (s : SignalFx) (channel : list Tick)
  : option (RunState * list StepOut) :=
  Run timing sent dropped s 0 channel.

Definition point (s : SignalFx) (n : string) : DataPoint :=
  convertToProto s (gauge n).

(** Four metrics at 0.5s, 0.6s, 1.0s and 2.0s into a buffer of size 2. *)
Definition four_ticks : list Tick :=
  [tick_at 500 "a"; tick_at 600 "b"; tick_at 1000 "c"; tick_at 2000 "d"].

End Scenario.

(** The handlers and states the scenarios start from. *)
Module Cases.
Import Scenario.

Definition h2 : SignalFx := handler_with 2 "token".
Definition h100 : SignalFx := handler_with 100 "token".
Definition unconfigured : SignalFx := handler_with 100 "".

Definition start (s : SignalFx) : RunState :=
  {| handler := s; datapoints := []; lastEmission := 0;
     lastHandlerMetricsEmission := 0 |}.

(** The state of the buffer of size 2 after the metrics at 0.5s and 0.6s,
    and after the one at 1.0s. *)
Definition after_two : RunState :=
  fst (Run_loop timing sent dropped (start h2) (take 2 four_ticks)).
Definition after_three : RunState :=
  fst (Run_loop timing sent dropped (start h2) (take 3 four_ticks)).

(** The request that leaves for an empty serialized payload. *)
Definition post (s : SignalFx) : Request :=
  {| Method := "POST"; URL := endpoint s;
     Header := [("X-SF-TOKEN", authToken s);
                ("Content-Type", "application/x-protobuf")];
     ReqBody := [] |}.

End Cases.

(** ** Properties *)

(** *** Clock arithmetic *)

Lemma intervalPassed_Z (s : SignalFx) (now last : Time) :
  intervalPassed s now last
  = (interval s * 1000000000 <=? now - last)%Z.
Proof.
  unfold intervalPassed, Qle_bool, Seconds, Sub. simpl.
  now rewrite Z.mul_1_r.
Qed.

Lemma intervalPassed_Qle (s : SignalFx) (now last : Time) :
  intervalPassed s now last = true
  <-> (inject_Z (interval s) <= Seconds (Sub now last))%Q.
Proof. unfold intervalPassed. apply Qle_bool_iff. Qed.

(** *** The transport leaves the handler alone *)

Lemma emitMetrics_handler (s : SignalFx) (dps : list DataPoint) (net : Net) :
  fst (emitMetrics s dps net) = s.
Proof.
  unfold emitMetrics.
  repeat (match goal with
          | |- context [if ?b then _ else _] => destruct b
          | |- context [match ?x with _ => _ end] => destruct x
          end; try reflexivity).
Qed.

(** *** One iteration, field by field *)

Section Iteration.

Variable makeEmissionTimeMetric : SignalFx -> metric.Metric.
Variable makeMetricsSentMetric : SignalFx -> metric.Metric.
Variable makeMetricsDroppedMetric : SignalFx -> metric.Metric.

Local Abbreviation report :=
  (reportHandlerMetrics makeEmissionTimeMetric makeMetricsSentMetric
     makeMetricsDroppedMetric).
Local Abbreviation body :=
  (Run_body makeEmissionTimeMetric makeMetricsSentMetric
     makeMetricsDroppedMetric).
Local Abbreviation loop :=
  (Run_loop makeEmissionTimeMetric makeMetricsSentMetric
     makeMetricsDroppedMetric).
Local Abbreviation emit_handler :=
  (handler_at_emit makeEmissionTimeMetric makeMetricsSentMetric
     makeMetricsDroppedMetric).
Local Abbreviation emit_batch :=
  (batch_at_emit makeEmissionTimeMetric makeMetricsSentMetric
     makeMetricsDroppedMetric).

Ltac iteration st tk :=
  unfold Run_body, emitAndReset, handler_at_emit, batch_at_emit;
  fold (arrived st tk); fold (emitIntervalPassed st tk);
  fold (emitHandlerIntervalPassed st tk);
  fold (bufferSizeLimitReached st tk); fold (doEmit st tk);
  destruct (emitHandlerIntervalPassed st tk);
  [ destruct (report (handler st) (arrived st tk)) as [s1 d1] | ];
  destruct (doEmit st tk); simpl;
  repeat match goal with
    | |- context [emitMetrics ?s ?d ?n] =>
        let E := fresh "E" in
        let s2 := fresh "s2" in
        let evs := fresh "evs" in
        pose proof (emitMetrics_handler s d n) as E;
        destruct (emitMetrics s d n) as [s2 evs]; simpl in E; subst s2
    end; simpl; try reflexivity.

Lemma body_selfReported (st : RunState) (tk : Tick) :
  selfReported (snd (body st tk)) = emitHandlerIntervalPassed st tk.
Proof. iteration st tk. Qed.

Lemma body_emitted (st : RunState) (tk : Tick) :
  emitted (snd (body st tk))
  = if doEmit st tk then Some (emit_batch st tk) else None.
Proof. iteration st tk. Qed.

Lemma body_datapoints (st : RunState) (tk : Tick) :
  datapoints (fst (body st tk))
  = if doEmit st tk then [] else emit_batch st tk.
Proof. iteration st tk. Qed.

Lemma body_lastEmission (st : RunState) (tk : Tick) :
  lastEmission (fst (body st tk))
  = if doEmit st tk then now_after tk else lastEmission st.
Proof. iteration st tk. Qed.

Lemma body_lastHandlerMetricsEmission (st : RunState) (tk : Tick) :
  lastHandlerMetricsEmission (fst (body st tk))
  = if emitHandlerIntervalPassed st tk then now_handler_reset tk
    else lastHandlerMetricsEmission st.
Proof. iteration st tk. Qed.

Lemma body_handler (st : RunState) (tk : Tick) :
  handler (fst (body st tk))
  = if doEmit st tk
    then set_emissionTimes
           (emissionTimes (emit_handler st tk)
              ++ [Seconds (Sub (now_after tk) (now_before tk))])
           (emit_handler st tk)
    else emit_handler st tk.
Proof. iteration st tk. Qed.

Lemma body_events (st : RunState) (tk : Tick) :
  events (snd (body st tk))
  = Log (Debug_datapoint (convertToProto (handler st) (incomingMetric tk)))
    :: if doEmit st tk
       then snd (emitMetrics (emit_handler st tk) (emit_batch st tk)
                   (net tk))
              ++ [Log (Info_post_took
                         (Seconds (Sub (now_after tk) (now_before tk))))]
       else [].
Proof. iteration st tk. Qed.

(** The block that reports the handler's own metrics appends exactly three
    data points and touches nothing of the configuration. *)
Lemma report_datapoints (s : SignalFx) (dps : list DataPoint) :
  exists a b c, snd (report s dps) = dps ++ [a; b; c].
Proof.
  unfold reportHandlerMetrics. simpl.
  do 3 eexists. now rewrite <- !app_assoc.
Qed.

Lemma report_length (s : SignalFx) (dps : list DataPoint) :
  length (snd (report s dps)) = (length dps + 3)%nat.
Proof.
  destruct (report_datapoints s dps) as (a & b & c & ->).
  rewrite length_app. reflexivity.
Qed.

Lemma report_handler (s : SignalFx) (dps : list DataPoint) :
  fst (report s dps)
  = set_metricsDropped 0 (set_metricsSent 0 (set_emissionTimes [] s)).
Proof. reflexivity. Qed.

Lemma emit_handler_config (st : RunState) (tk : Tick) :
  same_config (handler st) (emit_handler st tk).
Proof.
  unfold handler_at_emit, same_config.
  destruct (emitHandlerIntervalPassed st tk); [rewrite report_handler|];
    simpl; repeat split.
Qed.

Lemma body_config (st : RunState) (tk : Tick) :
  same_config (handler st) (handler (fst (body st tk))).
Proof.
  rewrite body_handler. pose proof (emit_handler_config st tk) as H.
  destruct (doEmit st tk); [|exact H].
  unfold same_config in *. simpl. exact H.
Qed.


End Iteration.

(** *** The encoder *)

(** C2. The data point built for a metric is named [prefix + name]; its type
    is GAUGE for a gauge, COUNTER for a counter, CUMULATIVE_COUNTER for a
    cumulative counter, and is left unset for a metric of any other type
    (a data point is built all the same). *)
Theorem C2_convertToProto_name_and_type (s : SignalFx) (m : metric.Metric) :
  Metric (convertToProto s m) = Some (prefix s +:+ metric.Name m)
  /\ DPMetricType (convertToProto s m)
     = match metric.MetricType m with
       | metric.Gauge => Some MetricType_GAUGE
       | metric.Counter => Some MetricType_COUNTER
       | metric.CumulativeCounter => Some MetricType_CUMULATIVE_COUNTER
       | metric.OtherType _ => None
       end
  /\ (DPMetricType (convertToProto s m) = None
      <-> exists tag, metric.MetricType m = metric.OtherType tag).
Proof.
  split; [reflexivity|]. split; [reflexivity|].
  unfold convertToProto; simpl.
  destruct (metric.MetricType m) as [ | | |tag]; split;
    try discriminate; try reflexivity.
  - intros [tag H]; discriminate.
  - intros [tag H]; discriminate.
  - intros [tag H]; discriminate.
  - intros _. now exists tag.
Qed.

(** *** The transport *)

(** The status text of success carries the status code 200. *)
Lemma status_200_OK (rsp : Response) :
  Status rsp = "200 OK" -> StatusCode rsp = Some 200.
Proof. unfold StatusCode. intros ->. reflexivity. Qed.

(** C3, as the code has it.  When a response arrives, [emitMetrics] takes it
    for a success exactly when its status text is ["200 OK"]; for every other
    status text, hence for every status code other than 200, it logs the
    rejection with the status and the body read from the response.  In both
    cases one request has left, none is repeated, and the handler is as it
    was. *)
Theorem C3_emitMetrics_response (s : SignalFx) (dps : list DataPoint)
    (net : Net) (serialized : list Byte.byte) (req0 : Request)
    (rsp : Response) :
  let payload := {| Datapoints := dps |} in
  let req := Header_Set "Content-Type" "application/x-protobuf"
               (Header_Set "X-SF-TOKEN" (authToken s) req0) in
  dps <> [] ->
  authToken s <> "" ->
  endpoint s <> "" ->
  proto_Marshal net payload = Some serialized ->
  http_NewRequest net "POST" (endpoint s) serialized = Some req0 ->
  client_Do net req = DoResponse rsp ->
  (Status rsp = "200 OK" ->
   emitMetrics s dps net
   = (s, [Log (Info_starting (length dps)); HttpDo req;
          Log (Info_sent (length dps))]))
  /\ (Status rsp <> "200 OK" ->
      emitMetrics s dps net
      = (s, [Log (Info_starting (length dps)); HttpDo req;
             Log (Error_rejected (endpoint s) (Status rsp) (Body rsp)
                    payload)]))
  /\ (StatusCode rsp <> Some 200 -> Status rsp <> "200 OK").
Proof.
  intros payload req Hdps Htok Hend Hmar Hreq Hdo.
  assert (Hlen : (length dps =? 0)%nat = false)
    by (destruct dps; [contradiction | reflexivity]).
  assert (Hcfg : String.eqb (authToken s) "" || String.eqb (endpoint s) ""
                 = false).
  { apply orb_false_iff; split; apply String.eqb_neq; assumption. }
  unfold emitMetrics. rewrite Hlen, Hcfg. fold payload.
  rewrite Hmar, Hreq. fold req. rewrite Hdo.
  repeat split.
  - intros H200. apply String.eqb_eq in H200. now rewrite H200.
  - intros Hnot. apply String.eqb_neq in Hnot. now rewrite Hnot.
  - intros Hcode H200. apply Hcode. now apply status_200_OK.
Qed.

(** [emitMetrics] stops before anything is serialized or sent when the batch
    is empty or the configuration is incomplete. *)
Lemma emitMetrics_skips (s : SignalFx) (dps : list DataPoint) (net : Net) :
  dps = [] \/ authToken s = "" \/ endpoint s = "" ->
  emitMetrics s dps net
  = (s, [Log (Info_starting (length dps));
         Log (if (length dps =? 0)%nat then Warn_empty_payload
              else Warn_missing_config {| Datapoints := dps |})]).
Proof.
  intros H. unfold emitMetrics.
  destruct (length dps =? 0)%nat eqn:Hlen; [reflexivity|].
  destruct H as [-> | [Htok | Hend]]; [discriminate | |].
  - rewrite Htok. reflexivity.
  - rewrite Hend, orb_true_r. reflexivity.
Qed.

(** The line that reports a success carries the size of the batch. *)
Lemma emitMetrics_sent (s : SignalFx) (dps : list DataPoint) (net : Net)
    (n : nat) :
  In (Log (Info_sent n)) (snd (emitMetrics s dps net)) -> n = length dps.
Proof.
  unfold emitMetrics.
  repeat (match goal with
          | |- context [if ?b then _ else _] => destruct b
          | |- context [match ?x with _ => _ end] => destruct x
          end; simpl);
    intros H; repeat (destruct H as [H | H]; try discriminate H);
    try contradiction.
  now inversion H.
Qed.

(** *** The loop *)

Section Loop.

Variable makeEmissionTimeMetric : SignalFx -> metric.Metric.
Variable makeMetricsSentMetric : SignalFx -> metric.Metric.
Variable makeMetricsDroppedMetric : SignalFx -> metric.Metric.

Local Abbreviation report :=
  (reportHandlerMetrics makeEmissionTimeMetric makeMetricsSentMetric
     makeMetricsDroppedMetric).
Local Abbreviation body :=
  (Run_body makeEmissionTimeMetric makeMetricsSentMetric
     makeMetricsDroppedMetric).
Local Abbreviation loop :=
  (Run_loop makeEmissionTimeMetric makeMetricsSentMetric
     makeMetricsDroppedMetric).
Local Abbreviation emit_handler :=
  (handler_at_emit makeEmissionTimeMetric makeMetricsSentMetric
     makeMetricsDroppedMetric).
Local Abbreviation emit_batch :=
  (batch_at_emit makeEmissionTimeMetric makeMetricsSentMetric
     makeMetricsDroppedMetric).
Local Abbreviation run :=
  (Run makeEmissionTimeMetric makeMetricsSentMetric
     makeMetricsDroppedMetric).
Local Abbreviation reach :=
  (reachable makeEmissionTimeMetric makeMetricsSentMetric
     makeMetricsDroppedMetric).

Lemma loop_cons (st : RunState) (tk : Tick) (rest : list Tick) :
  loop st (tk :: rest)
  = (fst (loop (fst (body st tk)) rest),
     snd (body st tk) :: snd (loop (fst (body st tk)) rest)).
Proof.
  simpl. destruct (body st tk) as [st1 out]. simpl.
  destruct (loop st1 rest). reflexivity.
Qed.

Lemma loop_config (channel : list Tick) (st : RunState) :
  same_config (handler st) (handler (fst (loop st channel))).
Proof.
  revert st. induction channel as [|tk rest IH]; intros st.
  - simpl. unfold same_config. repeat split.
  - rewrite loop_cons. simpl.
    pose proof (body_config makeEmissionTimeMetric makeMetricsSentMetric
                  makeMetricsDroppedMetric st tk) as Hb.
    specialize (IH (fst (body st tk))).
    unfold same_config in *. intuition congruence.
Qed.

Lemma reachable_loop (s : SignalFx) (t0 : Time) (channel : list Tick)
    (st : RunState) :
  reach s t0 st -> reach s t0 (fst (loop st channel)).
Proof.
  revert st. induction channel as [|tk rest IH]; intros st Hst.
  - exact Hst.
  - rewrite loop_cons. simpl. apply IH. now apply reachable_step.
Qed.

Lemma reachable_config (s : SignalFx) (t0 : Time) (st : RunState) :
  reach s t0 st -> same_config s (handler st).
Proof.
  induction 1 as [st Hinit | st tk Hst IH].
  - unfold Run_init in Hinit.
    destruct (maxBufferSize s <? 0)%Z; [discriminate|].
    injection Hinit as <-. simpl. unfold same_config. repeat split.
  - pose proof (body_config makeEmissionTimeMetric makeMetricsSentMetric
                  makeMetricsDroppedMetric st tk) as Hb.
    unfold same_config in *. intuition congruence.
Qed.

Lemma reachable_capacity (s : SignalFx) (t0 : Time) (st : RunState) :
  reach s t0 st -> (0 <= maxBufferSize s)%Z.
Proof.
  induction 1 as [st Hinit | st tk Hst IH]; [|exact IH].
  unfold Run_init in Hinit.
  destruct (maxBufferSize s <? 0)%Z eqn:Hneg; [discriminate|].
  now apply Z.ltb_ge.
Qed.

Lemma emit_batch_length (st : RunState) (tk : Tick) :
  length (emit_batch st tk)
  = (length (datapoints st) + 1
     + if emitHandlerIntervalPassed st tk then 3 else 0)%nat.
Proof.
  unfold batch_at_emit.
  destruct (emitHandlerIntervalPassed st tk).
  - rewrite report_length. unfold arrived. rewrite length_app. reflexivity.
  - unfold arrived. rewrite length_app. simpl. lia.
Qed.

(** Between two iterations the buffer holds at most two entries more than
    [maxBufferSize]. *)
Lemma reachable_buffer (s : SignalFx) (t0 : Time) (st : RunState) :
  reach s t0 st ->
  (Z.of_nat (length (datapoints st)) <= maxBufferSize s + 2)%Z.
Proof.
  intros Hreach. pose proof (reachable_capacity _ _ _ Hreach) as Hcap.
  induction Hreach as [st Hinit | st tk Hst IH].
  - unfold Run_init in Hinit.
    destruct (maxBufferSize s <? 0)%Z; [discriminate|].
    injection Hinit as <-. simpl. lia.
  - rewrite body_datapoints.
    destruct (doEmit st tk) eqn:Hemit; [simpl; lia|].
    apply orb_false_iff in Hemit as [_ Hsize].
    unfold bufferSizeLimitReached in Hsize. apply Z.leb_gt in Hsize.
    destruct (reachable_config _ _ _ Hst) as (_ & Hmax & _).
    rewrite Hmax in Hsize. rewrite emit_batch_length.
    unfold arrived in Hsize. rewrite length_app in Hsize. simpl in Hsize.
    destruct (emitHandlerIntervalPassed st tk); lia.
Qed.

(** C4, as the code has it.  No call of [emitMetrics] changes the sent
    counter, a successful one included: a success is only logged, with the
    size of the batch.  Across an iteration of the loop the counter is either
    what it was or, when the handler's own metrics are reported, zero. *)
Theorem C4_sent_counter_untouched :
  (forall (s : SignalFx) (dps : list DataPoint) (net : Net) (n : nat),
      In (Log (Info_sent n)) (snd (emitMetrics s dps net)) ->
      n = length dps
      /\ metricsSent (fst (emitMetrics s dps net)) = metricsSent s)
  /\ (forall (st : RunState) (tk : Tick),
         metricsSent (handler (fst (body st tk)))
         = if selfReported (snd (body st tk)) then 0%Z
           else metricsSent (handler st)).
Proof.
  split.
  - intros s dps net n Hin. split.
    + now apply emitMetrics_sent in Hin.
    + now rewrite emitMetrics_handler.
  - intros st tk. rewrite body_handler, body_selfReported.
    unfold handler_at_emit.
    destruct (doEmit st tk), (emitHandlerIntervalPassed st tk);
      reflexivity.
Qed.

Lemma requests_app (l1 l2 : list Event) :
  requests (l1 ++ l2) = requests l1 ++ requests l2.
Proof. unfold requests. apply omap_app. Qed.

Lemma body_no_request (st : RunState) (tk : Tick) :
  authToken (handler st) = "" \/ endpoint (handler st) = "" ->
  requests (events (snd (body st tk))) = [].
Proof.
  intros Hcfg. rewrite body_events.
  destruct (doEmit st tk); [|reflexivity].
  destruct (emit_handler_config makeEmissionTimeMetric
              makeMetricsSentMetric makeMetricsDroppedMetric st tk)
    as (_ & _ & Htok & Hend & _).
  rewrite emitMetrics_skips by (right; rewrite Htok, Hend; exact Hcfg).
  reflexivity.
Qed.

Lemma loop_no_request (channel : list Tick) (st : RunState) :
  authToken (handler st) = "" \/ endpoint (handler st) = "" ->
  requests (trace (snd (loop st channel))) = [].
Proof.
  revert st. induction channel as [|tk rest IH]; intros st Hcfg.
  - reflexivity.
  - rewrite loop_cons. unfold trace. simpl.
    rewrite requests_app, body_no_request by exact Hcfg.
    apply IH.
    destruct (body_config makeEmissionTimeMetric makeMetricsSentMetric
                makeMetricsDroppedMetric st tk)
      as (_ & _ & Htok & Hend & _).
    rewrite Htok, Hend. exact Hcfg.
Qed.

(** C5. [emitMetrics] does nothing but log a warning when the batch is
    empty, and also when the auth token or the endpoint is the empty string:
    no request leaves, no error is logged, the handler is as it was.  With
    the token or the endpoint missing, no request leaves during a whole run
    of the loop, whatever the batches. *)
Theorem C5_skipped_sends (s : SignalFx) :
  (forall (dps : list DataPoint) (net : Net),
      dps = [] \/ authToken s = "" \/ endpoint s = "" ->
      fst (emitMetrics s dps net) = s
      /\ requests (snd (emitMetrics s dps net)) = []
      /\ forallb (fun e => negb (is_error e)) (snd (emitMetrics s dps net))
         = true)
  /\ (forall (t0 : Time) (channel : list Tick)
        (r : RunState * list StepOut),
         authToken s = "" \/ endpoint s = "" ->
         run s t0 channel = Some r ->
         requests (trace (snd r)) = []).
Proof.
  split.
  - intros dps net H. rewrite (emitMetrics_skips s dps net H). simpl.
    repeat split. destruct (length dps =? 0)%nat; reflexivity.
  - intros t0 channel r Hcfg Hrun. unfold Run, Run_init in Hrun.
    destruct (maxBufferSize s <? 0)%Z; [discriminate|].
    injection Hrun as <-. apply loop_no_request. exact Hcfg.
Qed.

(** C6, as the code has it.  In every state the loop reaches, the buffer
    holds at most [maxBufferSize + 2] entries, hence at most
    [maxBufferSize + 3] once the incoming data point is appended and the
    flush is decided. *)
Theorem C6_buffer_bound (s : SignalFx) (t0 : Time) (st : RunState)
    (tk : Tick) :
  reach s t0 st ->
  (Z.of_nat (length (datapoints st)) <= maxBufferSize s + 2)%Z
  /\ (Z.of_nat (length (arrived st tk)) <= maxBufferSize s + 3)%Z.
Proof.
  intros Hreach. pose proof (reachable_buffer _ _ _ Hreach) as Hbuf.
  split; [exact Hbuf|].
  unfold arrived. rewrite length_app. simpl. lia.
Qed.

(** C9, as the code has it.  The size trigger looks at the buffer with the
    incoming data point appended and before the handler's own metrics are:
    whether these are reported or not does not change the decision, so an
    iteration whose interval has not passed and whose buffer was below
    [maxBufferSize] does not flush, even when the three points make the
    buffer reach [maxBufferSize].  A flushed batch holds at most
    [maxBufferSize + 6] data points. *)
Theorem C9_size_trigger_before_self_report (s : SignalFx) (t0 : Time)
    (st : RunState) (tk : Tick) :
  (bufferSizeLimitReached st tk
   = (maxBufferSize (handler st)
        <=? Z.of_nat (length (datapoints st)) + 1)%Z)
  /\ (emitIntervalPassed st tk = false ->
      (Z.of_nat (length (datapoints st)) + 1 < maxBufferSize (handler st))%Z ->
      emitted (snd (body st tk)) = None
      /\ length (datapoints (fst (body st tk)))
         = (length (datapoints st) + 1
            + if selfReported (snd (body st tk)) then 3 else 0)%nat)
  /\ (reach s t0 st ->
      forall batch : list DataPoint,
        emitted (snd (body st tk)) = Some batch ->
        (Z.of_nat (length batch) <= maxBufferSize s + 6)%Z).
Proof.
  assert (Hlen : Z.of_nat (length (arrived st tk))
                 = (Z.of_nat (length (datapoints st)) + 1)%Z)
    by (unfold arrived; rewrite length_app; simpl; lia).
  split; [|split].
  - unfold bufferSizeLimitReached. now rewrite Hlen.
  - intros Htime Hsize.
    assert (Hemit : doEmit st tk = false).
    { unfold doEmit. rewrite Htime. simpl.
      unfold bufferSizeLimitReached. apply Z.leb_gt. lia. }
    rewrite body_emitted, body_datapoints, body_selfReported, Hemit.
    split; [reflexivity|]. apply emit_batch_length.
  - intros Hreach batch Hbatch.
    rewrite body_emitted in Hbatch.
    destruct (doEmit st tk); [|discriminate].
    injection Hbatch as <-. rewrite emit_batch_length.
    pose proof (reachable_buffer _ _ _ Hreach).
    destruct (emitHandlerIntervalPassed st tk); lia.
Qed.

(** C10. [emitMetrics] returns the handler it was given, on every path.
    Recording the duration of the emission, emptying the buffer and moving
    [lastEmission] is the business of [Run]: it does all three on every
    iteration that flushes, whatever the transport met, and none of them on
    an iteration that does not. *)
Theorem C10_emitMetrics_frame :
  (forall (s : SignalFx) (dps : list DataPoint) (net : Net),
      fst (emitMetrics s dps net) = s)
  /\ (forall (st : RunState) (tk : Tick),
         is_Some (emitted (snd (body st tk))) ->
         handler (fst (body st tk))
         = set_emissionTimes
             (emissionTimes (emit_handler st tk)
                ++ [Seconds (Sub (now_after tk) (now_before tk))])
             (emit_handler st tk)
         /\ datapoints (fst (body st tk)) = []
         /\ lastEmission (fst (body st tk)) = now_after tk)
  /\ (forall (st : RunState) (tk : Tick),
         emitted (snd (body st tk)) = None ->
         handler (fst (body st tk)) = emit_handler st tk
         /\ datapoints (fst (body st tk)) = emit_batch st tk
         /\ lastEmission (fst (body st tk)) = lastEmission st).
Proof.
  split; [exact emitMetrics_handler|].
  split; intros st tk;
    rewrite body_emitted, body_handler, body_datapoints, body_lastEmission;
    destruct (doEmit st tk); intros H; auto.
  - destruct H; discriminate.
  - discriminate.
Qed.
(** The interval test, on nanoseconds. *)
Lemma seconds_le (n : Z) (d : Duration) :
  (inject_Z n <= Seconds d)%Q <-> (n * 1000000000 <= d)%Z.
Proof.
  unfold Qle, Seconds. simpl. now rewrite Z.mul_1_r.
Qed.

(** Once the clock has passed [A] and the anchor of the handler's own
    metrics is at [A] or later, every later report comes an interval or more
    after [A]. *)
Lemma self_report_after (channel : list Tick) :
  forall (st : RunState) (t A : Time) (j : nat) (tkj : Tick) (oj : StepOut),
    clock_monotone t channel = true ->
    (A <= t)%Z ->
    (A <= lastHandlerMetricsEmission st)%Z ->
    channel !! j = Some tkj ->
    snd (loop st channel) !! j = Some oj ->
    selfReported oj = true ->
    (interval (handler st) * 1000000000 <= now_handler_check tkj - A)%Z.
Proof.
  induction channel as [|tk rest IH];
    intros st t A j tkj oj Hclock HAt HAanchor Htick Hout Hfired;
    [discriminate|].
  rewrite loop_cons in Hout. simpl in Hclock, Hout.
  repeat (apply andb_prop in Hclock as [Hclock ?]).
  repeat match goal with
         | H : (_ <=? _)%Z = true |- _ => apply Z.leb_le in H
         end.
  destruct j as [|j]; simpl in Htick, Hout.
  - injection Htick as <-. injection Hout as <-.
    rewrite body_selfReported in Hfired.
    unfold emitHandlerIntervalPassed in Hfired.
    rewrite intervalPassed_Z in Hfired. apply Z.leb_le in Hfired. lia.
  - destruct (body_config makeEmissionTimeMetric makeMetricsSentMetric
                makeMetricsDroppedMetric st tk) as (Hint & _).
    rewrite <- Hint.
    apply (IH (fst (body st tk)) (now_after tk) A j tkj oj); auto.
    + lia.
    + rewrite body_lastHandlerMetricsEmission.
      destruct (emitHandlerIntervalPassed st tk); lia.
Qed.

Lemma self_report_spacing (channel : list Tick) :
  forall (st : RunState) (t : Time) (i j : nat) (tki tkj : Tick)
         (oi oj : StepOut),
    clock_monotone t channel = true ->
    (i < j)%nat ->
    channel !! i = Some tki -> channel !! j = Some tkj ->
    snd (loop st channel) !! i = Some oi ->
    snd (loop st channel) !! j = Some oj ->
    selfReported oi = true -> selfReported oj = true ->
    (interval (handler st) * 1000000000
     <= now_handler_check tkj - now_handler_reset tki)%Z.
Proof.
  induction channel as [|tk rest IH];
    intros st t i j tki tkj oi oj Hclock Hij Hi Hj Hoi Hoj Hfi Hfj;
    [discriminate|].
  rewrite loop_cons in Hoi, Hoj. simpl in Hclock, Hoi, Hoj.
  destruct j as [|j]; [lia|]. simpl in Hj, Hoj.
  destruct (body_config makeEmissionTimeMetric makeMetricsSentMetric
              makeMetricsDroppedMetric st tk) as (Hint & _).
  rewrite <- Hint.
  repeat (apply andb_prop in Hclock as [Hclock ?]).
  destruct i as [|i]; simpl in Hi, Hoi.
  - injection Hi as <-. injection Hoi as <-.
    rewrite body_selfReported in Hfi.
    repeat match goal with
           | H : (_ <=? _)%Z = true |- _ => apply Z.leb_le in H
           end.
    apply (self_report_after rest (fst (body st tk)) (now_after tk)
             (now_handler_reset tk) j tkj oj); auto.
    + lia.
    + rewrite body_lastHandlerMetricsEmission, Hfi. lia.
  - apply (IH (fst (body st tk)) (now_after tk) i j tki tkj oi oj); auto.
    lia.
Qed.

(** C7. The handler's own metrics are reported on an iteration exactly when
    the interval has passed since [lastHandlerMetricsEmission], an anchor of
    its own that moves to the current clock reading when the report fires
    and at no other time.  An iteration that reports appends the data
    points of the three metrics to the buffer, after the data point of the
    incoming metric, and resets what each metric was built from: the batch
    it flushes, or else the buffer it leaves, ends with the three points, and
    the handler it leaves has both counters at zero and no emission time but
    that of the flush of the same iteration, if there is one.  An iteration
    that does not report leaves both counters as they were.  On a clock that
    does not run backwards, any two reports of a run are an interval or more
    apart. *)
Theorem C7_self_report :
  (forall (st : RunState) (tk : Tick),
      (selfReported (snd (body st tk)) = true
       <-> (inject_Z (interval (handler st))
              <= Seconds (Sub (now_handler_check tk)
                            (lastHandlerMetricsEmission st)))%Q)
      /\ lastHandlerMetricsEmission (fst (body st tk))
         = (if selfReported (snd (body st tk)) then now_handler_reset tk
            else lastHandlerMetricsEmission st)
      /\ (selfReported (snd (body st tk)) = true ->
          (exists a b c, emit_batch st tk = arrived st tk ++ [a; b; c])
          /\ metricsSent (emit_handler st tk) = 0%Z
          /\ metricsDropped (emit_handler st tk) = 0%Z
          /\ emissionTimes (emit_handler st tk) = [])
      /\ (selfReported (snd (body st tk)) = true ->
          let s := handler st in
          let s1 := resetEmissionTimes s in
          let s2 := resetMetricsSent s1 in
          let s3 := resetMetricsDropped s2 in
          let points :=
            datapoints st
              ++ [convertToProto s (incomingMetric tk);
                  convertToProto s1 (makeEmissionTimeMetric s);
                  convertToProto s2 (makeMetricsSentMetric s1);
                  convertToProto s3 (makeMetricsDroppedMetric s2)] in
          match emitted (snd (body st tk)) with
          | Some batch =>
              batch = points
              /\ datapoints (fst (body st tk)) = []
              /\ emissionTimes (handler (fst (body st tk)))
                 = [Seconds (Sub (now_after tk) (now_before tk))]
          | None =>
              datapoints (fst (body st tk)) = points
              /\ emissionTimes (handler (fst (body st tk))) = []
          end
          /\ metricsSent (handler (fst (body st tk))) = 0%Z
          /\ metricsDropped (handler (fst (body st tk))) = 0%Z)
      /\ (selfReported (snd (body st tk)) = false ->
          metricsSent (handler (fst (body st tk)))
          = metricsSent (handler st)
          /\ metricsDropped (handler (fst (body st tk)))
             = metricsDropped (handler st)
          /\ match emitted (snd (body st tk)) with
             | Some batch =>
                 batch = arrived st tk /\ datapoints (fst (body st tk)) = []
             | None => datapoints (fst (body st tk)) = arrived st tk
             end))
  /\ (forall (channel : list Tick) (st : RunState) (t : Time) (i j : nat)
        (tki tkj : Tick) (oi oj : StepOut),
         clock_monotone t channel = true ->
         (i < j)%nat ->
         channel !! i = Some tki -> channel !! j = Some tkj ->
         snd (loop st channel) !! i = Some oi ->
         snd (loop st channel) !! j = Some oj ->
         selfReported oi = true -> selfReported oj = true ->
         (inject_Z (interval (handler st))
          <= Seconds (Sub (now_handler_check tkj) (now_handler_reset tki)))%Q).
Proof.
  split.
  - intros st tk.
    rewrite body_selfReported, body_lastHandlerMetricsEmission.
    split; [apply intervalPassed_Qle|]. split; [reflexivity|].
    rewrite body_emitted, body_datapoints, body_handler.
    split; [|split].
    + intros Hfired. unfold batch_at_emit, handler_at_emit.
      rewrite Hfired, report_handler. repeat split.
      apply report_datapoints.
    + intros Hfired. unfold batch_at_emit, handler_at_emit.
      rewrite Hfired, report_handler.
      unfold reportHandlerMetrics, arrived. simpl.
      rewrite <- !app_assoc. simpl.
      destruct (doEmit st tk); repeat split.
    + intros Hquiet. unfold batch_at_emit, handler_at_emit.
      rewrite Hquiet. destruct (doEmit st tk); repeat split.
  - intros channel st t i j tki tkj oi oj Hclock Hij Hi Hj Hoi Hoj Hfi Hfj.
    apply seconds_le. unfold Sub.
    exact (self_report_spacing channel st t i j tki tkj oi oj
             Hclock Hij Hi Hj Hoi Hoj Hfi Hfj).
Qed.




End Loop.

(** ** The properties on the scenarios *)


(** A backend that answers 500 with the body "overloaded". *)
Lemma C3_witness :
  emitMetrics Cases.h100 [Scenario.point Cases.h100 "a"]
    (Scenario.backend "500 Internal Server Error" "overloaded")
  = (Cases.h100,
     [Log (Info_starting 1); HttpDo (Cases.post Cases.h100);
      Log (Error_rejected (endpoint Cases.h100) "500 Internal Server Error"
             "overloaded"
             {| Datapoints := [Scenario.point Cases.h100 "a"] |})]).
Proof.
  refine (proj1 (proj2 (C3_emitMetrics_response Cases.h100
            [Scenario.point Cases.h100 "a"]
            (Scenario.backend "500 Internal Server Error" "overloaded")
            []
            {| Method := "POST"; URL := endpoint Cases.h100; Header := [];
               ReqBody := [] |}
            {| Status := "500 Internal Server Error"; Body := "overloaded" |}
            _ _ _ _ _ _)) _);
    first [reflexivity | discriminate].
Defined.

(** A backend that accepts the batch and words its status line differently:
    the status code is 200, and [emitMetrics] logs a rejection. *)
Lemma C3_counterexample :
  StatusCode {| Status := "200 Success"; Body := "" |} = Some 200
  /\ emitMetrics Cases.h100 [Scenario.point Cases.h100 "a"]
       (Scenario.backend "200 Success" "")
     = (Cases.h100,
        [Log (Info_starting 1); HttpDo (Cases.post Cases.h100);
         Log (Error_rejected (endpoint Cases.h100) "200 Success" ""
                {| Datapoints := [Scenario.point Cases.h100 "a"] |})]).
Proof. split; reflexivity. Qed.

Lemma C4_witness :
  1%nat = length [Scenario.point Cases.h100 "a"]
  /\ metricsSent (fst (emitMetrics Cases.h100 [Scenario.point Cases.h100 "a"]
                         (Scenario.backend "200 OK" "")))
     = metricsSent Cases.h100.
Proof.
  apply (proj1 (C4_sent_counter_untouched Scenario.timing Scenario.sent
                  Scenario.dropped)).
  vm_compute. right. right. left. reflexivity.
Defined.

(** One data point is sent and accepted, and the counter stays at 0; after
    the four metrics of [four_ticks], of which batches of 2 and 8 data points
    were sent and accepted, it is 0 as well. *)
Lemma C4_counterexample :
  snd (emitMetrics Cases.h100 [Scenario.point Cases.h100 "a"]
         (Scenario.backend "200 OK" ""))
  = [Log (Info_starting 1); HttpDo (Cases.post Cases.h100);
     Log (Info_sent 1)]
  /\ metricsSent Cases.h100 = 0%Z
  /\ metricsSent (fst (emitMetrics Cases.h100
                         [Scenario.point Cases.h100 "a"]
                         (Scenario.backend "200 OK" ""))) = 0%Z
  /\ option_map (fun r => (map (@length DataPoint) (flushes (snd r)),
                           metricsSent (handler (fst r))))
       (Scenario.run Cases.h2 Scenario.four_ticks)
     = Some ([2%nat; 8%nat], 0%Z).
Proof. repeat split. Qed.

Lemma C5_witness :
  requests (snd (emitMetrics Cases.unconfigured
                   [Scenario.point Cases.unconfigured "a"]
                   (Scenario.backend "200 OK" ""))) = []
  /\ requests (trace (snd (Run_loop Scenario.timing Scenario.sent
                             Scenario.dropped (Cases.start Cases.unconfigured)
                             Scenario.four_ticks))) = [].
Proof.
  destruct (C5_skipped_sends Scenario.timing Scenario.sent Scenario.dropped
              Cases.unconfigured) as [Hcall Hrun].
  split.
  - apply Hcall. right. left. reflexivity.
  - apply (Hrun 0%Z Scenario.four_ticks).
    + left. reflexivity.
    + reflexivity.
Defined.

Lemma after_three_reachable :
  reachable Scenario.timing Scenario.sent Scenario.dropped Cases.h2 0
    Cases.after_three.
Proof.
  unfold Cases.after_three. apply reachable_loop.
  apply reachable_init. reflexivity.
Qed.

Lemma C6_witness :
  (Z.of_nat (length (datapoints Cases.after_three))
   <= maxBufferSize Cases.h2 + 2)%Z
  /\ (Z.of_nat (length (arrived Cases.after_three
                          (Scenario.tick_at 2000 "d")))
      <= maxBufferSize Cases.h2 + 3)%Z.
Proof.
  apply (C6_buffer_bound Scenario.timing Scenario.sent Scenario.dropped
           Cases.h2 0 Cases.after_three (Scenario.tick_at 2000 "d")).
  unfold Cases.after_three. apply reachable_loop.
  apply reachable_init. reflexivity.
Defined.

(** A buffer of size 2.  Metrics at 0.5s and 0.6s fill it and are flushed;
    the metric at 1.0s is buffered, the interval since the flush has not
    passed, the one since the start has: the handler's three metrics join the
    buffer, which now holds 4 entries.  The flush of the metric at 2.0s is
    decided on a buffer of 5. *)
Lemma C6_counterexample :
  reachable Scenario.timing Scenario.sent Scenario.dropped Cases.h2 0
    Cases.after_three
  /\ maxBufferSize Cases.h2 = 2%Z
  /\ length (datapoints Cases.after_three) = 4%nat
  /\ length (arrived Cases.after_three (Scenario.tick_at 2000 "d")) = 5%nat.
Proof.
  split; [exact after_three_reachable|]. repeat split.
Qed.

Lemma C7_witness :
  (inject_Z (interval (handler (Cases.start Cases.h2)))
   <= Seconds (Sub (now_handler_check (Scenario.tick_at 2000 "d"))
                 (now_handler_reset (Scenario.tick_at 1000 "c"))))%Q.
Proof.
  eapply (proj2 (C7_self_report Scenario.timing Scenario.sent
                   Scenario.dropped)
            Scenario.four_ticks (Cases.start Cases.h2) 0%Z 2%nat 3%nat);
    first [lia | vm_compute; reflexivity].
Defined.



Lemma C9_witness :
  (emitted (snd (Run_body Scenario.timing Scenario.sent Scenario.dropped
                   Cases.after_two (Scenario.tick_at 1000 "c"))) = None
   /\ length (datapoints (fst (Run_body Scenario.timing Scenario.sent
                                 Scenario.dropped Cases.after_two
                                 (Scenario.tick_at 1000 "c"))))
      = 4%nat)
  /\ (Z.of_nat 8 <= maxBufferSize Cases.h2 + 6)%Z.
Proof.
  split.
  - apply (proj1 (proj2 (C9_size_trigger_before_self_report Scenario.timing
                           Scenario.sent Scenario.dropped Cases.h2 0
                           Cases.after_two (Scenario.tick_at 1000 "c"))));
      [reflexivity | vm_compute; reflexivity].
  - apply (proj2 (proj2 (C9_size_trigger_before_self_report Scenario.timing
                           Scenario.sent Scenario.dropped Cases.h2 0
                           Cases.after_three (Scenario.tick_at 2000 "d")))
             after_three_reachable
             (batch_at_emit Scenario.timing Scenario.sent Scenario.dropped
                Cases.after_three (Scenario.tick_at 2000 "d"))).
    vm_compute. reflexivity.
Defined.

(** The run of [C6_counterexample]: the flush at 2.0s carries the 4 buffered
    entries, the incoming data point and the handler's three metrics, due
    again: 8 data points, with [maxBufferSize + 3 = 5]. *)
Lemma C9_counterexample :
  option_map (fun r => map (@length DataPoint) (flushes (snd r)))
    (Scenario.run Cases.h2 Scenario.four_ticks)
  = Some [2%nat; 8%nat]
  /\ (maxBufferSize Cases.h2 + 3 = 5)%Z.
Proof. split; reflexivity. Qed.

Lemma C10_witness :
  handler (fst (Run_body Scenario.timing Scenario.sent Scenario.dropped
                  Cases.after_three (Scenario.tick_at 2000 "d")))
  = set_emissionTimes [Seconds 0] (Cases.h2)
  /\ datapoints (fst (Run_body Scenario.timing Scenario.sent
                        Scenario.dropped Cases.after_three
                        (Scenario.tick_at 2000 "d"))) = []
  /\ lastEmission (fst (Run_body Scenario.timing Scenario.sent
                          Scenario.dropped Cases.after_three
                          (Scenario.tick_at 2000 "d")))
     = (2000 * Scenario.ms)%Z.
Proof.
  apply (proj1 (proj2 (C10_emitMetrics_frame Scenario.timing Scenario.sent
                         Scenario.dropped))
           Cases.after_three (Scenario.tick_at 2000 "d")).
  vm_compute. eexists. reflexivity.
Defined.

(** * Construction, configuration, and further properties of the handler *)

(** ** Definitions *)

(** The embedded [BaseHandler] on its own.  A method of [BaseHandler] called
    on a [SignalFx] receives this part of the handler and nothing else: it
    can neither read nor write [endpoint] and [authToken]. *)
Module BaseHandler.

Record t : Type := {
  name : string;
  interval : Z;
  maxBufferSize : Z;
  timeout : Z;
  prefix : string;
  defaultDimensions : gmap string string;
  emissionTimes : list Q;
  metricsSent : Z;
  metricsDropped : Z
}.

End BaseHandler.

Definition base_of (s : SignalFx) : BaseHandler.t :=
  {| BaseHandler.name := name s;
     BaseHandler.interval := interval s;
     BaseHandler.maxBufferSize := maxBufferSize s;
     BaseHandler.timeout := timeout s;
     BaseHandler.prefix := prefix s;
     BaseHandler.defaultDimensions := defaultDimensions s;
     BaseHandler.emissionTimes := emissionTimes s;
     BaseHandler.metricsSent := metricsSent s;
     BaseHandler.metricsDropped := metricsDropped s |}.

Definition with_base (b : BaseHandler.t) (s : SignalFx) : SignalFx :=
  {| name := BaseHandler.name b;
     interval := BaseHandler.interval b;
     maxBufferSize := BaseHandler.maxBufferSize b;
     timeout := BaseHandler.timeout b;
     prefix := BaseHandler.prefix b;
     defaultDimensions := BaseHandler.defaultDimensions b;
     emissionTimes := BaseHandler.emissionTimes b;
     metricsSent := BaseHandler.metricsSent b;
     metricsDropped := BaseHandler.metricsDropped b;
     endpoint := endpoint s; authToken := authToken s |}.

Definition set_authToken (v : string) (s : SignalFx) : SignalFx :=
  {| name := name s; interval := interval s; maxBufferSize := maxBufferSize s;
     timeout := timeout s; prefix := prefix s;
     defaultDimensions := defaultDimensions s;
     emissionTimes := emissionTimes s;
     metricsSent := metricsSent s; metricsDropped := metricsDropped s;
     endpoint := endpoint s; authToken := v |}.

Definition set_endpoint (v : string) (s : SignalFx) : SignalFx :=
  {| name := name s; interval := interval s; maxBufferSize := maxBufferSize s;
     timeout := timeout s; prefix := prefix s;
     defaultDimensions := defaultDimensions s;
     emissionTimes := emissionTimes s;
     metricsSent := metricsSent s; metricsDropped := metricsDropped s;
     endpoint := v; authToken := authToken s |}.

(** A value of a configuration map ([interface{}]): a string, or a value of
    any other dynamic type. *)
Inductive ConfigValue : Type :=
| StringValue (v : string)
| OtherValue (dynamicType : string).

(** The two lines [Configure] itself logs, both at the error level. *)
Inductive ConfigLog : Type :=
| Error_no_authToken
| Error_no_endpoint.

Section Construction.

(** The defaults of package [handler], declared elsewhere. *)
Variable DefaultInterval : Z.
Variable DefaultBufferSize : Z.
Variable DefaultTimeoutSec : Z.

(** NewSignalFx returns a new SignalFx handler: the fields it does not set
    have the zero value of their type. *)
Definition NewSignalFx : SignalFx :=
  {| name := "SignalFx";
     interval := DefaultInterval;
     maxBufferSize := DefaultBufferSize;
     timeout := DefaultTimeoutSec * 1000000000;
     prefix := "";
     defaultDimensions := ∅;
     emissionTimes := [];
     metricsSent := 0;
     metricsDropped := 0;
     endpoint := "";
     authToken := "" |}.

(** [configureCommonParams] of [BaseHandler], declared elsewhere: it is taken
    as it comes, as a function of the configuration map and of the base
    handler that may panic. *)
Variable configureCommonParams :
  gmap string ConfigValue -> BaseHandler.t -> option BaseHandler.t.

(** [v, exists := configMap[key]] followed by the type assertion
    [v.(string)], which panics on a value that is not a string: the outer
    [option] is the panic, the inner one the missing key. *)
Definition lookup_string (configMap : gmap string ConfigValue) (key : string)
  : option (option string) :=
  match configMap !! key with
  | Some (StringValue v) => Some (Some v)
  | Some (OtherValue _) => None
  | None => Some None
  end.

(** Configure accepts the different configuration options for the signalfx
    handler.  [None] is a panic. *)
Definition Configure (configMap : gmap string ConfigValue) (s : SignalFx)
  : option (SignalFx * list ConfigLog) :=
  match lookup_string configMap "authToken" with
  | None => None
  | Some found =>
      let '(s, log1) :=
        match found with
        | Some authToken => (set_authToken authToken s, [])
        | None => (s, [Error_no_authToken])
        end in
      match lookup_string configMap "endpoint" with
      | None => None
      | Some found =>
          let '(s, log2) :=
            match found with
            | Some endpoint => (set_endpoint endpoint s, [])
            | None => (s, [Error_no_endpoint])
            end in
          match configureCommonParams configMap (base_of s) with
          | None => None
          | Some b => Some (with_base b s, log1 ++ log2)
          end
      end
  end.

End Construction.

(** The request [emitMetrics] builds for a serialized payload. *)
Definition signalfxPost (s : SignalFx) (body : list Byte.byte) : Request :=
  {| Method := "POST"; URL := endpoint s;
     Header := [("X-SF-TOKEN", authToken s);
                ("Content-Type", "application/x-protobuf")];
     ReqBody := body |}.

(** What every data point built by [convertToProto] under prefix [pfx]
    carries. *)
Definition stamped (pfx : string) (dp : DataPoint) : Prop :=
  Source dp = Some "fullerite"
  /\ (exists n, Metric dp = Some (pfx +:+ n))
  /\ (exists v, Value dp = Some {| DoubleValue := Some v |}).

(** The batch flushed by an iteration, as a list of at most one batch. *)
Definition flushed (out : StepOut) : list (list DataPoint) :=
  match emitted out with Some batch => [batch] | None => [] end.

(** A tick of a run during which no interval elapses: its checks come less
    than [limit] nanoseconds after [t0], and its flush, if any, ends at [t0]
    or later. *)
Definition quiet (t0 : Time) (limit : Z) (tk : Tick) : Prop :=
  (now_emit_check tk - t0 < limit)%Z
  /\ (now_handler_check tk - t0 < limit)%Z
  /\ (t0 <= now_after tk)%Z.

(** Configuration maps and a [configureCommonParams] for the scenarios. *)
Module Config.

Definition complete : gmap string ConfigValue :=
  {[ "authToken" := StringValue "token";
     "endpoint" := StringValue "https://ingest.example/v2/datapoint" ]}.

Definition no_token : gmap string ConfigValue :=
  {[ "endpoint" := StringValue "https://ingest.example/v2/datapoint" ]}.

Definition bad_token : gmap string ConfigValue :=
  {[ "authToken" := OtherValue "float64";
     "endpoint" := StringValue "https://ingest.example/v2/datapoint" ]}.

(** Reads nothing from the map. *)
Definition common (configMap : gmap string ConfigValue) (b : BaseHandler.t)
  : option BaseHandler.t := Some b.

Definition fresh : SignalFx := NewSignalFx 10 100 2.

End Config.

(** ** The encoder: dimensions and what it reads *)

Lemma mkDimension_inj (kv kv' : string * string) :
  mkDimension kv = mkDimension kv' -> kv = kv'.
Proof.
  destruct kv as [k v], kv' as [k' v']. unfold mkDimension. simpl.
  intros H. injection H as -> ->. reflexivity.
Qed.

(** X1. The dimensions of a data point are the pairs of the merged
    dimension map, one entry per key: a pair is among them exactly when the
    map binds the key to the value, no key occurs twice, there are as many
    entries as the map has keys, and every entry has its key and its value
    set. *)
Theorem convertToProto_dimensions (s : SignalFx) (m : metric.Metric) :
  let merged := metric.GetDimensions m (DefaultDimensions s) in
  let dims := Dimensions (convertToProto s m) in
  (forall k v : string,
      In {| Key := Some k; DimValue := Some v |} dims
      <-> merged !! k = Some v)
  /\ NoDup (map Key dims)
  /\ length dims = size merged
  /\ Forall (fun d => is_Some (Key d) /\ is_Some (DimValue d)) dims.
Proof.
  intros merged dims. subst dims. unfold convertToProto. simpl.
  fold merged. repeat split.
  - intros Hin. apply in_map_iff in Hin as ([k' v'] & Heq & Hin).
    unfold mkDimension in Heq. simpl in Heq. injection Heq as -> ->.
    apply list_elem_of_In in Hin. now apply elem_of_map_to_list in Hin.
  - intros Hlook. apply in_map_iff. exists (k, v). split; [reflexivity|].
    apply list_elem_of_In. now apply elem_of_map_to_list.
  - rewrite map_map. simpl.
    rewrite <- (map_map fst Some).
    change (NoDup (Some <$> (map_to_list merged).*1)).
    apply (NoDup_fmap_2 Some), NoDup_fst_map_to_list.
  - rewrite length_map. apply length_map_to_list.
  - apply Forall_forall. intros d Hin. apply list_elem_of_In in Hin.
    apply in_map_iff in Hin as (kv & <- & _). simpl. split; eexists; reflexivity.
Qed.

Lemma convertToProto_config (s s' : SignalFx) (m : metric.Metric) :
  same_config s s' -> convertToProto s' m = convertToProto s m.
Proof.
  intros (_ & _ & _ & _ & Hpre & Hdim).
  unfold convertToProto, Prefix, DefaultDimensions. now rewrite Hpre, Hdim.
Qed.

Lemma convertToProto_stamped (s : SignalFx) (m : metric.Metric) :
  stamped (prefix s) (convertToProto s m).
Proof.
  unfold stamped, convertToProto, Prefix. simpl.
  repeat split; eexists; reflexivity.
Qed.

(** ** The transport: what leaves and what is logged *)

(** [emitMetrics], path by path, with the request spelled out. *)
Lemma emitMetrics_paths (s : SignalFx) (dps : list DataPoint) (net : Net) :
  emitMetrics s dps net
  = (s,
     Log (Info_starting (length dps))
     :: if (length dps =? 0)%nat then [Log Warn_empty_payload]
        else if String.eqb (authToken s) "" || String.eqb (endpoint s) ""
        then [Log (Warn_missing_config {| Datapoints := dps |})]
        else
          match proto_Marshal net {| Datapoints := dps |} with
          | None => [Log (Error_serialize {| Datapoints := dps |})]
          | Some body =>
              if url_accepted net (endpoint s) then
                HttpDo (signalfxPost s body)
                :: match client_Do net (signalfxPost s body) with
                   | DoError err => [Log (Error_post err)]
                   | DoResponse rsp =>
                       if String.eqb (Status rsp) "200 OK"
                       then [Log (Info_sent (length dps))]
                       else [Log (Error_rejected (endpoint s) (Status rsp)
                                    (Body rsp) {| Datapoints := dps |})]
                   end
              else [Log (Error_create_request (endpoint s))]
          end).
Proof.
  unfold emitMetrics, http_NewRequest.
  destruct (length dps =? 0)%nat; [reflexivity|].
  destruct (String.eqb (authToken s) "" || String.eqb (endpoint s) "");
    [reflexivity|].
  destruct (proto_Marshal net {| Datapoints := dps |}) as [body|];
    [|reflexivity].
  destruct (url_accepted net (endpoint s)); [|reflexivity].
  change (Header_Set "Content-Type" "application/x-protobuf"
            (Header_Set "X-SF-TOKEN" (authToken s)
               {| Method := "POST"; URL := endpoint s; Header := [];
                  ReqBody := body |}))
    with (signalfxPost s body).
  destruct (client_Do net (signalfxPost s body)) as [err|rsp];
    [reflexivity|].
  destruct (String.eqb (Status rsp) "200 OK"); reflexivity.
Qed.

Lemma nonempty_length {A : Type} (l : list A) :
  (length l =? 0)%nat = false <-> l <> [].
Proof.
  destruct l; simpl; split; intros H; try discriminate; try reflexivity.
  now contradiction H.
Qed.

Lemma configured_iff (s : SignalFx) :
  String.eqb (authToken s) "" || String.eqb (endpoint s) "" = false
  <-> authToken s <> "" /\ endpoint s <> "".
Proof.
  rewrite orb_false_iff, !String.eqb_neq. reflexivity.
Qed.

Lemma emitMetrics_requests (s : SignalFx) (dps : list DataPoint)
    (net : Net) :
  requests (snd (emitMetrics s dps net))
  = if (length dps =? 0)%nat then []
    else if String.eqb (authToken s) "" || String.eqb (endpoint s) ""
    then []
    else
      match proto_Marshal net {| Datapoints := dps |} with
      | None => []
      | Some body =>
          if url_accepted net (endpoint s) then [signalfxPost s body]
          else []
      end.
Proof.
  rewrite emitMetrics_paths. simpl.
  destruct (length dps =? 0)%nat; [reflexivity|].
  destruct (String.eqb (authToken s) "" || String.eqb (endpoint s) "");
    [reflexivity|].
  destruct (proto_Marshal net {| Datapoints := dps |}) as [body|];
    [|reflexivity].
  destruct (url_accepted net (endpoint s)); [|reflexivity].
  destruct (client_Do net (signalfxPost s body)) as [err|rsp];
    [reflexivity|].
  destruct (String.eqb (Status rsp) "200 OK"); reflexivity.
Qed.

(** X2. One call of [emitMetrics] sends at most one request.  A request that
    leaves is the POST to the handler's endpoint that carries the token and
    the content type as headers and the serialized batch as body, and it
    leaves only for a batch that is not empty and a handler that has both a
    token and an endpoint.  Conversely the request does leave whenever batch
    and configuration are there, the batch serializes and the URL is
    accepted. *)
Theorem emitMetrics_request (s : SignalFx) (dps : list DataPoint)
    (net : Net) :
  (length (requests (snd (emitMetrics s dps net))) <= 1)%nat
  /\ (forall req : Request,
         In req (requests (snd (emitMetrics s dps net))) ->
         exists body,
           proto_Marshal net {| Datapoints := dps |} = Some body
           /\ req = signalfxPost s body
           /\ dps <> [] /\ authToken s <> "" /\ endpoint s <> ""
           /\ url_accepted net (endpoint s) = true)
  /\ (forall body : list Byte.byte,
         dps <> [] -> authToken s <> "" -> endpoint s <> "" ->
         proto_Marshal net {| Datapoints := dps |} = Some body ->
         url_accepted net (endpoint s) = true ->
         requests (snd (emitMetrics s dps net)) = [signalfxPost s body]).
Proof.
  rewrite emitMetrics_requests.
  split; [|split].
  - repeat (match goal with
            | |- context [if ?b then _ else _] => destruct b
            | |- context [match ?x with _ => _ end] => destruct x
            end; simpl; try lia).
  - intros req.
    destruct (length dps =? 0)%nat eqn:Hlen; [intros []|].
    destruct (String.eqb (authToken s) "" || String.eqb (endpoint s) "")
      eqn:Hcfg; [intros []|].
    destruct (proto_Marshal net {| Datapoints := dps |}) as [body|];
      [|intros []].
    destruct (url_accepted net (endpoint s)); [|intros []].
    intros [<- | []]. exists body.
    apply nonempty_length in Hlen. apply configured_iff in Hcfg as [? ?].
    repeat split; assumption.
  - intros body Hdps Htok Hend Hmar Hurl.
    apply nonempty_length in Hdps.
    rewrite Hdps, (proj2 (configured_iff s) (conj Htok Hend)), Hmar, Hurl.
    reflexivity.
Qed.

Lemma emitMetrics_request_witness :
  requests (snd (emitMetrics Cases.h100 [Scenario.point Cases.h100 "a"]
                   (Scenario.backend "503 Service Unavailable" "")))
  = [signalfxPost Cases.h100 []].
Proof.
  apply (proj2 (proj2 (emitMetrics_request Cases.h100
                         [Scenario.point Cases.h100 "a"]
                         (Scenario.backend "503 Service Unavailable" ""))));
    first [reflexivity | discriminate].
Defined.

Lemma empty_length {A : Type} (l : list A) :
  (length l =? 0)%nat = true <-> l = [].
Proof. destruct l; simpl; split; intros H; try discriminate; reflexivity. Qed.

Lemma unconfigured_iff (s : SignalFx) :
  String.eqb (authToken s) "" || String.eqb (endpoint s) "" = true
  <-> authToken s = "" \/ endpoint s = "".
Proof. rewrite orb_true_iff, !String.eqb_eq. reflexivity. Qed.

(** X3. What one call of [emitMetrics] logs.  An error is logged exactly
    when a batch that is not empty, on a handler that has a token and an
    endpoint, fails on the way: it does not serialize, or the URL is not
    accepted, or the request fails, or the response has a status text other
    than ["200 OK"].  The success line, with the size of the batch, is logged
    exactly when the request was answered with ["200 OK"].  A skipped call
    logs neither. *)
Theorem emitMetrics_outcome (s : SignalFx) (dps : list DataPoint)
    (net : Net) :
  let evs := snd (emitMetrics s dps net) in
  let payload := {| Datapoints := dps |} in
  (existsb is_error evs = true
   <-> dps <> [] /\ authToken s <> "" /\ endpoint s <> ""
       /\ (proto_Marshal net payload = None
           \/ exists body,
               proto_Marshal net payload = Some body
               /\ (url_accepted net (endpoint s) = false
                   \/ url_accepted net (endpoint s) = true
                      /\ ((exists err,
                              client_Do net (signalfxPost s body)
                              = DoError err)
                          \/ (exists rsp,
                                 client_Do net (signalfxPost s body)
                                 = DoResponse rsp
                                 /\ Status rsp <> "200 OK")))))
  /\ (In (Log (Info_sent (length dps))) evs
      <-> dps <> [] /\ authToken s <> "" /\ endpoint s <> ""
          /\ exists body rsp,
              proto_Marshal net payload = Some body
              /\ url_accepted net (endpoint s) = true
              /\ client_Do net (signalfxPost s body) = DoResponse rsp
              /\ Status rsp = "200 OK").
Proof.
  intros evs payload. subst evs payload. rewrite emitMetrics_paths. simpl.
  destruct (length dps =? 0)%nat eqn:Hlen.
  { apply empty_length in Hlen. simpl. split; split; intros H.
    - discriminate.
    - now destruct H as [H _].
    - simpl in H. intuition discriminate.
    - now destruct H as [H _]. }
  apply nonempty_length in Hlen.
  destruct (String.eqb (authToken s) "" || String.eqb (endpoint s) "")
    eqn:Hcfg.
  { apply unconfigured_iff in Hcfg. simpl. split; split; intros H.
    - discriminate.
    - destruct H as (_ & ? & ? & _), Hcfg; contradiction.
    - simpl in H. intuition discriminate.
    - destruct H as (_ & ? & ? & _), Hcfg; contradiction. }
  apply configured_iff in Hcfg as [Htok Hend].
  destruct (proto_Marshal net {| Datapoints := dps |}) as [body|] eqn:Hmar.
  2:{ simpl. split; split; intros H.
      - repeat split; auto.
      - reflexivity.
      - simpl in H. intuition discriminate.
      - destruct H as (_ & _ & _ & b & r & Hb & _). discriminate. }
  destruct (url_accepted net (endpoint s)) eqn:Hurl.
  2:{ simpl. split; split; intros H.
      - repeat split; auto. right. exists body. auto.
      - reflexivity.
      - simpl in H. intuition discriminate.
      - destruct H as (_ & _ & _ & b & r & _ & Hb & _). discriminate. }
  destruct (client_Do net (signalfxPost s body)) as [err|rsp] eqn:Hdo.
  { simpl. split; split; intros H.
    - repeat split; auto. right. exists body. split; [reflexivity|].
      right. split; [reflexivity|]. left. now exists err.
    - reflexivity.
    - simpl in H. intuition discriminate.
    - destruct H as (_ & _ & _ & b & r & Hb & _ & Hr & _).
      injection Hb as <-. rewrite Hdo in Hr. discriminate. }
  destruct (String.eqb (Status rsp) "200 OK") eqn:Hst.
  - apply String.eqb_eq in Hst. simpl. split; split; intros H.
    + discriminate.
    + destruct H as (_ & _ & _ & [H | (b & Hb & [H | (_ & [[e H] | H])])]).
      * discriminate.
      * discriminate.
      * injection Hb as <-. rewrite Hdo in H. discriminate.
      * destruct H as (r & Hr & Hne). injection Hb as <-.
        rewrite Hdo in Hr. injection Hr as <-. contradiction.
    + repeat split; auto. exists body, rsp. auto.
    + right. right. left. reflexivity.
  - apply String.eqb_neq in Hst. simpl. split; split; intros H.
    + repeat split; auto. right. exists body. split; [reflexivity|].
      right. split; [reflexivity|]. right. now exists rsp.
    + reflexivity.
    + simpl in H. intuition discriminate.
    + destruct H as (_ & _ & _ & b & r & Hb & _ & Hr & Heq).
      injection Hb as <-. rewrite Hdo in Hr. injection Hr as <-.
      contradiction.
Qed.

(** ** Construction and configuration *)

Section Configuration.

Variable DefaultInterval : Z.
Variable DefaultBufferSize : Z.
Variable DefaultTimeoutSec : Z.
Variable configureCommonParams :
  gmap string ConfigValue -> BaseHandler.t -> option BaseHandler.t.
Variable makeEmissionTimeMetric : SignalFx -> metric.Metric.
Variable makeMetricsSentMetric : SignalFx -> metric.Metric.
Variable makeMetricsDroppedMetric : SignalFx -> metric.Metric.

Local Abbreviation configure := (Configure configureCommonParams).
Local Abbreviation new :=
  (NewSignalFx DefaultInterval DefaultBufferSize DefaultTimeoutSec).

(** [Configure], when it does not panic. *)
Lemma Configure_Some (configMap : gmap string ConfigValue)
    (s s' : SignalFx) (log : list ConfigLog) :
  configure configMap s = Some (s', log) ->
  exists (tok endp : option string) (b : BaseHandler.t),
    lookup_string configMap "authToken" = Some tok
    /\ lookup_string configMap "endpoint" = Some endp
    /\ configureCommonParams configMap (base_of s) = Some b
    /\ s' = with_base b
              (set_endpoint (default (endpoint s) endp)
                 (set_authToken (default (authToken s) tok) s))
    /\ log = match tok with Some _ => [] | None => [Error_no_authToken] end
             ++ match endp with
                | Some _ => []
                | None => [Error_no_endpoint]
                end.
Proof.
  unfold Configure. intros H.
  destruct (lookup_string configMap "authToken") as [tok|]; [|discriminate].
  destruct (lookup_string configMap "endpoint") as [endp|];
    [|destruct tok; discriminate].
  exists tok, endp.
  destruct tok as [tok|], endp as [endp|]; simpl in *;
    match type of H with
    | context [configureCommonParams configMap ?b] =>
        change b with (base_of s) in H;
        destruct (configureCommonParams configMap (base_of s)) as [b'|];
          [|discriminate]
    end;
    injection H as <- <-; exists b'; repeat split; destruct s; reflexivity.
Qed.

(** X4. When [Configure] returns, the token and the endpoint of the handler
    are the strings the map gives for ["authToken"] and ["endpoint"]; for a
    key the map does not have, the field keeps its value and the error line
    of that key is logged, and it is logged in no other case.  What
    [configureCommonParams] makes of the base handler is all else that
    changes. *)
Theorem Configure_fields (configMap : gmap string ConfigValue)
    (s s' : SignalFx) (log : list ConfigLog) :
  configure configMap s = Some (s', log) ->
  authToken s'
  = match configMap !! "authToken" with
    | Some (StringValue v) => v
    | _ => authToken s
    end
  /\ Endpoint s'
     = match configMap !! "endpoint" with
       | Some (StringValue v) => v
       | _ => Endpoint s
       end
  /\ (In Error_no_authToken log <-> configMap !! "authToken" = None)
  /\ (In Error_no_endpoint log <-> configMap !! "endpoint" = None)
  /\ configureCommonParams configMap (base_of s) = Some (base_of s').
Proof.
  clear makeEmissionTimeMetric makeMetricsSentMetric
    makeMetricsDroppedMetric.
  intros H.
  apply Configure_Some in H as (tok & endp & b & Htok & Hend & Hb & -> & ->).
  unfold lookup_string, Endpoint in *.
  destruct (configMap !! "authToken") as [[a|t]|];
    [injection Htok as <- | discriminate | injection Htok as <-];
    (destruct (configMap !! "endpoint") as [[e|t']|];
     [injection Hend as <- | discriminate | injection Hend as <-]);
    simpl; rewrite Hb; repeat split;
    try reflexivity; try (destruct b; reflexivity);
    try (intros H; try discriminate H; simpl in H; simpl;
         solve [intuition discriminate | auto]).
Qed.

(** X5. [Configure] panics exactly when the map gives a value that is not a
    string for ["authToken"] or for ["endpoint"], or
    [configureCommonParams] panics. *)
Theorem Configure_panics (configMap : gmap string ConfigValue)
    (s : SignalFx) :
  configure configMap s = None
  <-> (exists t, configMap !! "authToken" = Some (OtherValue t))
      \/ (exists t, configMap !! "endpoint" = Some (OtherValue t))
      \/ configureCommonParams configMap (base_of s) = None.
Proof.
  unfold Configure, lookup_string.
  destruct (configMap !! "authToken") as [[a|t]|];
    destruct (configMap !! "endpoint") as [[e|t']|]; simpl;
    try match goal with
      | |- context [configureCommonParams configMap ?b] =>
          change b with (base_of s);
          destruct (configureCommonParams configMap (base_of s))
      end;
    split; intros H; try discriminate; try reflexivity; eauto;
    destruct H as [[? H] | [[? H] | H]]; discriminate.
Qed.
(** X6. A new handler configured from a map that lacks the token or the
    endpoint logs the error of the missing key and then, as that line says,
    emits nothing: no run of the loop sends a request. *)
Theorem missing_key_never_sends (configMap : gmap string ConfigValue)
    (s : SignalFx) (log : list ConfigLog) :
  configure configMap new = Some (s, log) ->
  configMap !! "authToken" = None \/ configMap !! "endpoint" = None ->
  (In Error_no_authToken log \/ In Error_no_endpoint log)
  /\ forall (t0 : Time) (channel : list Tick)
        (r : RunState * list StepOut),
      Run makeEmissionTimeMetric makeMetricsSentMetric
        makeMetricsDroppedMetric s t0 channel = Some r ->
      requests (trace (snd r)) = [].
Proof.
  intros Hcfg Hmissing.
  apply Configure_Some in Hcfg
    as (tok & endp & b & Htok & Hend & _ & -> & ->).
  unfold lookup_string in Htok, Hend.
  assert (Hempty : tok = None \/ endp = None).
  { destruct Hmissing as [H | H]; rewrite H in *;
      [left; now injection Htok | right; now injection Hend]. }
  split.
  - destruct Hempty as [-> | ->]; [left | right]; apply in_or_app;
      [left | right]; left; reflexivity.
  - intros t0 channel r Hrun. unfold Run, Run_init in Hrun.
    match type of Hrun with
    | context [if ?c then _ else _] => destruct c; [discriminate|]
    end.
    injection Hrun as <-. apply loop_no_request. simpl.
    destruct Hempty as [-> | ->]; [left | right]; reflexivity.
Qed.

(** X7. A handler configured from a map that gives a token and an endpoint,
    neither empty, logs no error, answers [Endpoint] with the endpoint of
    the map, and sends a batch that is not empty to that endpoint with that
    token, provided the batch serializes and the URL is accepted. *)
Theorem configured_handler_sends (configMap : gmap string ConfigValue)
    (s0 s : SignalFx) (log : list ConfigLog) (a e : string)
    (dps : list DataPoint) (net : Net) (body : list Byte.byte) :
  configure configMap s0 = Some (s, log) ->
  configMap !! "authToken" = Some (StringValue a) ->
  configMap !! "endpoint" = Some (StringValue e) ->
  a <> "" -> e <> "" -> dps <> [] ->
  proto_Marshal net {| Datapoints := dps |} = Some body ->
  url_accepted net e = true ->
  log = []
  /\ Endpoint s = e
  /\ requests (snd (emitMetrics s dps net))
     = [{| Method := "POST"; URL := e;
           Header := [("X-SF-TOKEN", a);
                      ("Content-Type", "application/x-protobuf")];
           ReqBody := body |}].
Proof.
  intros Hcfg Ha He Hane Hene Hdps Hmar Hurl.
  apply Configure_Some in Hcfg
    as (tok & endp & b & Htok & Hend & _ & -> & ->).
  unfold lookup_string in Htok, Hend. rewrite Ha in Htok. rewrite He in Hend.
  injection Htok as <-. injection Hend as <-.
  split; [reflexivity|]. split; [reflexivity|].
  rewrite emitMetrics_requests. simpl.
  apply nonempty_length in Hdps. rewrite Hdps.
  apply String.eqb_neq in Hane, Hene. rewrite Hane, Hene. simpl.
  rewrite Hmar, Hurl. reflexivity.
Qed.

End Configuration.

Lemma Configure_fields_witness :
  authToken (with_base (base_of Config.fresh)
               (set_endpoint "https://ingest.example/v2/datapoint"
                  Config.fresh))
  = ""
  /\ Endpoint (with_base (base_of Config.fresh)
                 (set_endpoint "https://ingest.example/v2/datapoint"
                    Config.fresh))
     = "https://ingest.example/v2/datapoint"
  /\ (In Error_no_authToken [Error_no_authToken]
      <-> Config.no_token !! "authToken" = None)
  /\ (In Error_no_endpoint [Error_no_authToken]
      <-> Config.no_token !! "endpoint" = None)
  /\ Config.common Config.no_token (base_of Config.fresh)
     = Some (base_of (with_base (base_of Config.fresh)
                        (set_endpoint "https://ingest.example/v2/datapoint"
                           Config.fresh))).
Proof.
  pose proof (Configure_fields Config.common Config.no_token Config.fresh
                (with_base (base_of Config.fresh)
                   (set_endpoint "https://ingest.example/v2/datapoint"
                      Config.fresh))
                [Error_no_authToken] eq_refl) as H.
  exact H.
Defined.

Lemma missing_key_never_sends_witness :
  (In Error_no_authToken [Error_no_authToken]
   \/ In Error_no_endpoint [Error_no_authToken])
  /\ requests (trace (snd (Run_loop Scenario.timing Scenario.sent
                             Scenario.dropped
                             (Cases.start
                                (with_base (base_of Config.fresh)
                                   (set_endpoint
                                      "https://ingest.example/v2/datapoint"
                                      Config.fresh)))
                             Scenario.four_ticks))) = [].
Proof.
  destruct (missing_key_never_sends 10 100 2 Config.common Scenario.timing
              Scenario.sent Scenario.dropped Config.no_token
              (with_base (base_of Config.fresh)
                 (set_endpoint "https://ingest.example/v2/datapoint"
                    Config.fresh))
              [Error_no_authToken] eq_refl (or_introl eq_refl))
    as [Hlog Hrun].
  split; [exact Hlog|].
  apply (Hrun 0%Z Scenario.four_ticks). reflexivity.
Defined.

Lemma configured_handler_sends_witness :
  @nil ConfigLog = []
  /\ Endpoint (with_base (base_of Config.fresh)
                 (set_endpoint "https://ingest.example/v2/datapoint"
                    (set_authToken "token" Config.fresh)))
     = "https://ingest.example/v2/datapoint"
  /\ requests (snd (emitMetrics
                      (with_base (base_of Config.fresh)
                         (set_endpoint "https://ingest.example/v2/datapoint"
                            (set_authToken "token" Config.fresh)))
                      [Scenario.point Config.fresh "a"]
                      (Scenario.backend "200 OK" "")))
     = [{| Method := "POST"; URL := "https://ingest.example/v2/datapoint";
           Header := [("X-SF-TOKEN", "token");
                      ("Content-Type", "application/x-protobuf")];
           ReqBody := [] |}].
Proof.
  apply (configured_handler_sends Config.common Config.complete Config.fresh
           _ [] "token" "https://ingest.example/v2/datapoint"
           [Scenario.point Config.fresh "a"] (Scenario.backend "200 OK" "")
           []);
    first [reflexivity | discriminate].
Defined.

(** ** The loop: what is flushed, and when *)

Lemma emitMetrics_requests_le (s : SignalFx) (dps : list DataPoint)
    (net : Net) :
  (length (requests (snd (emitMetrics s dps net))) <= 1)%nat.
Proof.
  rewrite emitMetrics_requests.
  repeat (match goal with
          | |- context [if ?b then _ else _] => destruct b
          | |- context [match ?x with _ => _ end] => destruct x
          end; simpl; try lia).
Qed.

Lemma emitMetrics_warns_empty (s : SignalFx) (dps : list DataPoint)
    (net : Net) :
  In (Log Warn_empty_payload) (snd (emitMetrics s dps net)) -> dps = [].
Proof.
  rewrite emitMetrics_paths. simpl.
  destruct (length dps =? 0)%nat eqn:Hlen;
    [intros _; now apply empty_length|].
  repeat (match goal with
          | |- context [if ?b then _ else _] => destruct b
          | |- context [match ?x with _ => _ end] => destruct x
          end; simpl);
    intros H; exfalso; intuition discriminate.
Qed.

Section Batches.

Variable makeEmissionTimeMetric : SignalFx -> metric.Metric.
Variable makeMetricsSentMetric : SignalFx -> metric.Metric.
Variable makeMetricsDroppedMetric : SignalFx -> metric.Metric.

Local Abbreviation report :=
  (reportHandlerMetrics makeEmissionTimeMetric makeMetricsSentMetric
     makeMetricsDroppedMetric).
Local Abbreviation body :=
  (Run_body makeEmissionTimeMetric makeMetricsSentMetric
     makeMetricsDroppedMetric).
Local Abbreviation loop :=
  (Run_loop makeEmissionTimeMetric makeMetricsSentMetric
     makeMetricsDroppedMetric).
Local Abbreviation emit_handler :=
  (handler_at_emit makeEmissionTimeMetric makeMetricsSentMetric
     makeMetricsDroppedMetric).
Local Abbreviation emit_batch :=
  (batch_at_emit makeEmissionTimeMetric makeMetricsSentMetric
     makeMetricsDroppedMetric).
Local Abbreviation run :=
  (Run makeEmissionTimeMetric makeMetricsSentMetric
     makeMetricsDroppedMetric).

Lemma run_loop (s : SignalFx) (t0 : Time) (channel : list Tick)
    (r : RunState * list StepOut) :
  run s t0 channel = Some r ->
  r = loop {| handler := s; datapoints := []; lastEmission := t0;
              lastHandlerMetricsEmission := t0 |} channel
  /\ (0 <= maxBufferSize s)%Z.
Proof.
  unfold Run, Run_init.
  destruct (maxBufferSize s <? 0)%Z eqn:Hneg; [discriminate|].
  intros H. injection H as <-. split; [reflexivity|].
  now apply Z.ltb_ge.
Qed.

Lemma flushes_cons (out : StepOut) (outs : list StepOut) :
  flushes (out :: outs) = flushed out ++ flushes outs.
Proof. unfold flushes, flushed. simpl. now destruct (emitted out). Qed.

Lemma trace_cons (out : StepOut) (outs : list StepOut) :
  trace (out :: outs) = events out ++ trace outs.
Proof. reflexivity. Qed.

Lemma body_flushed (st : RunState) (tk : Tick) :
  flushed (snd (body st tk))
  = if doEmit st tk then [emit_batch st tk] else [].
Proof. unfold flushed. rewrite body_emitted. now destruct (doEmit st tk). Qed.

Lemma emit_batch_head (st : RunState) (tk : Tick) :
  exists extra,
    emit_batch st tk
    = datapoints st
        ++ convertToProto (handler st) (incomingMetric tk) :: extra
    /\ length extra
       = if emitHandlerIntervalPassed st tk then 3%nat else 0%nat.
Proof.
  unfold batch_at_emit, arrived.
  destruct (emitHandlerIntervalPassed st tk).
  - destruct (report_datapoints makeEmissionTimeMetric
                makeMetricsSentMetric makeMetricsDroppedMetric (handler st)
                (datapoints st
                   ++ [convertToProto (handler st) (incomingMetric tk)]))
      as (a & b & c & ->).
    exists [a; b; c]. rewrite <- app_assoc. split; reflexivity.
  - exists []. split; reflexivity.
Qed.

(** What an iteration flushes and what it keeps is the buffer it found, the
    data point of the incoming metric and, when they are due, the handler's
    own three. *)
Lemma body_conservation (st : RunState) (tk : Tick) :
  exists extra,
    concat (flushed (snd (body st tk))) ++ datapoints (fst (body st tk))
    = datapoints st
        ++ convertToProto (handler st) (incomingMetric tk) :: extra
    /\ length extra
       = if selfReported (snd (body st tk)) then 3%nat else 0%nat.
Proof.
  rewrite body_flushed, body_datapoints, body_selfReported.
  destruct (emit_batch_head st tk) as (extra & Hbatch & Hlen).
  exists extra. split; [|exact Hlen].
  destruct (doEmit st tk); simpl; rewrite ?app_nil_r; exact Hbatch.
Qed.

Lemma loop_conservation (channel : list Tick) :
  forall st : RunState,
  exists rest,
    concat (flushes (snd (loop st channel)))
      ++ datapoints (fst (loop st channel))
    = datapoints st ++ rest
    /\ sublist (map (fun tk => convertToProto (handler st)
                                 (incomingMetric tk)) channel) rest
    /\ length rest
       = (length channel
          + 3 * length (List.filter selfReported (snd (loop st channel))))%nat.
Proof.
  induction channel as [|tk more IH]; intros st.
  - exists []. simpl. rewrite app_nil_r. repeat split. constructor.
  - rewrite loop_cons. simpl fst. simpl snd.
    destruct (IH (fst (body st tk))) as (rest & Heq & Hsub & Hlen).
    destruct (body_conservation st tk) as (extra & Hstep & Hextra).
    exists (convertToProto (handler st) (incomingMetric tk)
              :: extra ++ rest).
    split; [|split].
    + rewrite flushes_cons, concat_app, <- app_assoc, Heq, app_assoc, Hstep.
      rewrite <- app_assoc. reflexivity.
    + simpl. apply sublist_skip. apply sublist_inserts_l.
      erewrite map_ext; [exact Hsub|].
      intros tk'. simpl. symmetry. apply convertToProto_config.
      apply body_config.
    + simpl. rewrite length_app, Hlen, Hextra.
      destruct (selfReported (snd (body st tk))); simpl; lia.
Qed.

(** X8. Nothing is lost or reordered on the way to the transport: the
    batches of a run, in the order they were flushed, followed by what is
    left in the buffer, contain the data points of the received metrics in
    the order of their arrival, and besides them only the three data points
    of every report of the handler's own metrics. *)
Theorem Run_keeps_every_point (s : SignalFx) (t0 : Time)
    (channel : list Tick) (r : RunState * list StepOut) :
  run s t0 channel = Some r ->
  sublist (map (fun tk => convertToProto s (incomingMetric tk)) channel)
    (concat (flushes (snd r)) ++ datapoints (fst r))
  /\ length (concat (flushes (snd r)) ++ datapoints (fst r))
     = (length channel
        + 3 * length (List.filter selfReported (snd r)))%nat.
Proof.
  intros Hrun. apply run_loop in Hrun as [-> _].
  match goal with
  | |- context [loop ?st channel] =>
      destruct (loop_conservation channel st) as (rest & Heq & Hsub & Hlen)
  end.
  simpl in Heq, Hsub. rewrite Heq. split; [exact Hsub | exact Hlen].
Qed.
Lemma emit_batch_nonempty (st : RunState) (tk : Tick) :
  emit_batch st tk <> [].
Proof.
  destruct (emit_batch_head st tk) as (extra & -> & _).
  destruct (datapoints st); discriminate.
Qed.

Lemma body_requests (st : RunState) (tk : Tick) :
  (length (requests (events (snd (body st tk))))
   <= length (flushed (snd (body st tk))) <= 1)%nat.
Proof.
  rewrite body_events, body_flushed.
  destruct (doEmit st tk); simpl; [|lia].
  rewrite requests_app. simpl. rewrite app_nil_r.
  pose proof (emitMetrics_requests_le (emit_handler st tk)
                (emit_batch st tk) (net tk)). lia.
Qed.

Lemma body_never_empty_payload (st : RunState) (tk : Tick) :
  ~ In (Log Warn_empty_payload) (events (snd (body st tk))).
Proof.
  rewrite body_events. intros [H | H]; [discriminate|].
  destruct (doEmit st tk); [|contradiction].
  apply in_app_or in H as [H | [H | []]]; [|discriminate].
  apply emitMetrics_warns_empty in H.
  now apply (emit_batch_nonempty st tk).
Qed.

Lemma loop_requests (channel : list Tick) :
  forall st : RunState,
    length (snd (loop st channel)) = length channel
    /\ (length (requests (trace (snd (loop st channel))))
        <= length (flushes (snd (loop st channel))) <= length channel)%nat
    /\ Forall (fun batch => batch <> []) (flushes (snd (loop st channel)))
    /\ ~ In (Log Warn_empty_payload) (trace (snd (loop st channel))).
Proof.
  induction channel as [|tk more IH]; intros st.
  - simpl. split; [reflexivity|]. split; [lia|].
    split; [constructor | tauto].
  - rewrite loop_cons. simpl snd.
    destruct (IH (fst (body st tk))) as (Hlen & Hreq & Hne & Hwarn).
    rewrite trace_cons, flushes_cons, requests_app, !length_app.
    pose proof (body_requests st tk) as Hbody.
    split; [|split; [|split]].
    + simpl. now rewrite Hlen.
    + simpl. lia.
    + apply Forall_app. split; [|exact Hne].
      rewrite body_flushed. destruct (doEmit st tk); constructor;
        [apply emit_batch_nonempty | constructor].
    + intros Hin. apply in_app_or in Hin as [Hin | Hin];
        [now apply (body_never_empty_payload st tk) | now apply Hwarn].
Qed.

(** X9. A run sends at most one request per flush and flushes at most once
    per received metric; no flushed batch is empty, so the warning about an
    empty payload is never logged by a run. *)
Theorem Run_flushes_and_requests (s : SignalFx) (t0 : Time)
    (channel : list Tick) (r : RunState * list StepOut) :
  run s t0 channel = Some r ->
  length (snd r) = length channel
  /\ (length (requests (trace (snd r))) <= length (flushes (snd r))
      <= length channel)%nat
  /\ Forall (fun batch => batch <> []) (flushes (snd r))
  /\ ~ In (Log Warn_empty_payload) (trace (snd r)).
Proof.
  intros Hrun. apply run_loop in Hrun as [-> _]. apply loop_requests.
Qed.

Lemma report_stamped (s : SignalFx) (dps : list DataPoint) :
  Forall (stamped (prefix s)) dps ->
  Forall (stamped (prefix s)) (snd (report s dps)).
Proof.
  intros H. unfold reportHandlerMetrics. simpl.
  repeat first
    [ exact H
    | match goal with
      | |- stamped _ (convertToProto ?h ?m) =>
          exact (convertToProto_stamped h m)
      end
    | apply Forall_app; split
    | constructor ].
Qed.

Lemma emit_batch_stamped (st : RunState) (tk : Tick) :
  Forall (stamped (prefix (handler st))) (datapoints st) ->
  Forall (stamped (prefix (handler st))) (emit_batch st tk).
Proof.
  intros H.
  assert (Harr : Forall (stamped (prefix (handler st))) (arrived st tk)).
  { unfold arrived. apply Forall_app. split; [exact H|].
    constructor; [apply convertToProto_stamped | constructor]. }
  unfold batch_at_emit. destruct (emitHandlerIntervalPassed st tk);
    [now apply report_stamped | exact Harr].
Qed.

Lemma loop_stamped (channel : list Tick) :
  forall st : RunState,
    Forall (stamped (prefix (handler st))) (datapoints st) ->
    Forall (Forall (stamped (prefix (handler st))))
      (flushes (snd (loop st channel)))
    /\ Forall (stamped (prefix (handler st)))
         (datapoints (fst (loop st channel))).
Proof.
  induction channel as [|tk more IH]; intros st Hst.
  - simpl. split; [constructor | exact Hst].
  - rewrite loop_cons. simpl fst. simpl snd.
    pose proof (emit_batch_stamped st tk Hst) as Hbatch.
    destruct (body_config makeEmissionTimeMetric makeMetricsSentMetric
                makeMetricsDroppedMetric st tk)
      as (_ & _ & _ & _ & Hpre & _).
    destruct (IH (fst (body st tk))) as [Hfl Hbuf].
    { rewrite Hpre, body_datapoints.
      destruct (doEmit st tk); [constructor | exact Hbatch]. }
    rewrite Hpre in Hfl, Hbuf. split; [|exact Hbuf].
    rewrite flushes_cons. apply Forall_app. split; [|exact Hfl].
    rewrite body_flushed. destruct (doEmit st tk); constructor;
      [exact Hbatch | constructor].
Qed.

(** X10. Every data point a run flushes or still holds, the handler's own
    included, has the source ["fullerite"], a name that starts with the
    prefix of the handler, and a value. *)
Theorem Run_points_are_stamped (s : SignalFx) (t0 : Time)
    (channel : list Tick) (r : RunState * list StepOut) :
  run s t0 channel = Some r ->
  Forall (Forall (stamped (prefix s))) (flushes (snd r))
  /\ Forall (stamped (prefix s)) (datapoints (fst r)).
Proof.
  intros Hrun. apply run_loop in Hrun as [-> _].
  match goal with
  | |- context [loop ?st channel] => apply (loop_stamped channel st)
  end.
  constructor.
Qed.

Lemma body_name_timeout (st : RunState) (tk : Tick) :
  name (handler (fst (body st tk))) = name (handler st)
  /\ timeout (handler (fst (body st tk))) = timeout (handler st).
Proof.
  rewrite body_handler. unfold handler_at_emit.
  destruct (doEmit st tk), (emitHandlerIntervalPassed st tk);
    rewrite ?report_handler; split; reflexivity.
Qed.

Lemma loop_name_timeout (channel : list Tick) :
  forall st : RunState,
    name (handler (fst (loop st channel))) = name (handler st)
    /\ timeout (handler (fst (loop st channel))) = timeout (handler st).
Proof.
  induction channel as [|tk more IH]; intros st; [split; reflexivity|].
  rewrite loop_cons. simpl fst.
  destruct (IH (fst (body st tk))) as [-> ->]. apply body_name_timeout.
Qed.

(** X11. A run changes nothing of the handler but its counters and its list
    of emission times: name, interval, buffer size, timeout, prefix, default
    dimensions, endpoint and token are at the end what they were at the
    start. *)
Theorem Run_keeps_configuration (s : SignalFx) (t0 : Time)
    (channel : list Tick) (r : RunState * list StepOut) :
  run s t0 channel = Some r ->
  set_metricsDropped (metricsDropped s)
    (set_metricsSent (metricsSent s)
       (set_emissionTimes (emissionTimes s) (handler (fst r))))
  = s.
Proof.
  intros Hrun. apply run_loop in Hrun as [-> _].
  match goal with
  | |- context [loop ?st channel] =>
      pose proof (loop_config makeEmissionTimeMetric makeMetricsSentMetric
                    makeMetricsDroppedMetric channel st)
        as (Hint & Hmax & Htok & Hend & Hpre & Hdim);
      destruct (loop_name_timeout channel st) as [Hname Htime]
  end.
  simpl in *.
  unfold set_metricsDropped, set_metricsSent, set_emissionTimes. simpl.
  rewrite Hint, Hmax, Htok, Hend, Hpre, Hdim, Hname, Htime.
  destruct s; reflexivity.
Qed.

End Batches.

(** The run of [four_ticks] on the buffer of size 2. *)
Lemma Run_keeps_every_point_witness :
  sublist
    (map (fun tk => convertToProto Cases.h2 (incomingMetric tk))
       Scenario.four_ticks)
    (concat (flushes (snd (Run_loop Scenario.timing Scenario.sent
                             Scenario.dropped (Cases.start Cases.h2)
                             Scenario.four_ticks)))
       ++ datapoints (fst (Run_loop Scenario.timing Scenario.sent
                             Scenario.dropped (Cases.start Cases.h2)
                             Scenario.four_ticks)))
  /\ length
       (concat (flushes (snd (Run_loop Scenario.timing Scenario.sent
                                Scenario.dropped (Cases.start Cases.h2)
                                Scenario.four_ticks)))
          ++ datapoints (fst (Run_loop Scenario.timing Scenario.sent
                                Scenario.dropped (Cases.start Cases.h2)
                                Scenario.four_ticks)))
     = (length Scenario.four_ticks
        + 3 * length (List.filter selfReported
                        (snd (Run_loop Scenario.timing Scenario.sent
                                Scenario.dropped (Cases.start Cases.h2)
                                Scenario.four_ticks))))%nat.
Proof.
  apply (Run_keeps_every_point Scenario.timing Scenario.sent
           Scenario.dropped Cases.h2 0%Z Scenario.four_ticks).
  reflexivity.
Defined.

Lemma Run_flushes_and_requests_witness :
  length (snd (Run_loop Scenario.timing Scenario.sent Scenario.dropped
                 (Cases.start Cases.h2) Scenario.four_ticks))
  = length Scenario.four_ticks
  /\ (length (requests (trace (snd (Run_loop Scenario.timing Scenario.sent
                                      Scenario.dropped (Cases.start Cases.h2)
                                      Scenario.four_ticks))))
      <= length (flushes (snd (Run_loop Scenario.timing Scenario.sent
                                 Scenario.dropped (Cases.start Cases.h2)
                                 Scenario.four_ticks)))
      <= length Scenario.four_ticks)%nat
  /\ Forall (fun batch => batch <> [])
       (flushes (snd (Run_loop Scenario.timing Scenario.sent
                        Scenario.dropped (Cases.start Cases.h2)
                        Scenario.four_ticks)))
  /\ ~ In (Log Warn_empty_payload)
         (trace (snd (Run_loop Scenario.timing Scenario.sent
                        Scenario.dropped (Cases.start Cases.h2)
                        Scenario.four_ticks))).
Proof.
  apply (Run_flushes_and_requests Scenario.timing Scenario.sent
           Scenario.dropped Cases.h2 0%Z Scenario.four_ticks).
  reflexivity.
Defined.

Lemma Run_points_are_stamped_witness :
  Forall (Forall (stamped (prefix Cases.h2)))
    (flushes (snd (Run_loop Scenario.timing Scenario.sent Scenario.dropped
                     (Cases.start Cases.h2) Scenario.four_ticks)))
  /\ Forall (stamped (prefix Cases.h2))
       (datapoints (fst (Run_loop Scenario.timing Scenario.sent
                           Scenario.dropped (Cases.start Cases.h2)
                           Scenario.four_ticks))).
Proof.
  apply (Run_points_are_stamped Scenario.timing Scenario.sent
           Scenario.dropped Cases.h2 0%Z Scenario.four_ticks).
  reflexivity.
Defined.

Lemma Run_keeps_configuration_witness :
  set_metricsDropped (metricsDropped Cases.h2)
    (set_metricsSent (metricsSent Cases.h2)
       (set_emissionTimes (emissionTimes Cases.h2)
          (handler (fst (Run_loop Scenario.timing Scenario.sent
                           Scenario.dropped (Cases.start Cases.h2)
                           Scenario.four_ticks)))))
  = Cases.h2.
Proof.
  apply (Run_keeps_configuration Scenario.timing Scenario.sent
           Scenario.dropped Cases.h2 0%Z Scenario.four_ticks).
  reflexivity.
Defined.

(** ** The loop under a small buffer, and while no interval elapses *)

Section Cadence.

Variable makeEmissionTimeMetric : SignalFx -> metric.Metric.
Variable makeMetricsSentMetric : SignalFx -> metric.Metric.
Variable makeMetricsDroppedMetric : SignalFx -> metric.Metric.

Local Abbreviation body :=
  (Run_body makeEmissionTimeMetric makeMetricsSentMetric
     makeMetricsDroppedMetric).
Local Abbreviation loop :=
  (Run_loop makeEmissionTimeMetric makeMetricsSentMetric
     makeMetricsDroppedMetric).
Local Abbreviation emit_batch :=
  (batch_at_emit makeEmissionTimeMetric makeMetricsSentMetric
     makeMetricsDroppedMetric).
Local Abbreviation run :=
  (Run makeEmissionTimeMetric makeMetricsSentMetric
     makeMetricsDroppedMetric).

Lemma loop_unbuffered (channel : list Tick) :
  forall st : RunState,
    datapoints st = [] ->
    (maxBufferSize (handler st) <= 1)%Z ->
    Forall2 (fun tk batch =>
               exists extra,
                 batch = convertToProto (handler st) (incomingMetric tk)
                           :: extra)
      channel (flushes (snd (loop st channel)))
    /\ datapoints (fst (loop st channel)) = [].
Proof.
  induction channel as [|tk more IH]; intros st Hbuf Hmax.
  - simpl. split; [constructor | exact Hbuf].
  - rewrite loop_cons. simpl fst. simpl snd.
    assert (Hemit : doEmit st tk = true).
    { unfold doEmit, bufferSizeLimitReached, arrived. rewrite Hbuf. simpl.
      apply orb_true_iff. right. apply Z.leb_le. lia. }
    destruct (body_config makeEmissionTimeMetric makeMetricsSentMetric
                makeMetricsDroppedMetric st tk) as (_ & Hmax' & _).
    destruct (IH (fst (body st tk))) as [Hall Hend].
    { now rewrite body_datapoints, Hemit. }
    { now rewrite Hmax'. }
    split; [|exact Hend].
    rewrite flushes_cons, body_flushed, Hemit. simpl. constructor.
    + destruct (emit_batch_head makeEmissionTimeMetric makeMetricsSentMetric
                  makeMetricsDroppedMetric st tk) as (extra & Hbatch & _).
      rewrite Hbuf in Hbatch. exists extra. exact Hbatch.
    + eapply Forall2_impl; [exact Hall|].
      intros tk' batch [extra ->]. exists extra. f_equal.
      apply convertToProto_config. apply body_config.
Qed.

(** X12. With [maxBufferSize] at most 1 nothing is buffered: every received
    metric is flushed by its own iteration, its data point first in the
    batch, and the buffer is empty between iterations. *)
Theorem Run_unbuffered (s : SignalFx) (t0 : Time) (channel : list Tick)
    (r : RunState * list StepOut) :
  run s t0 channel = Some r ->
  (maxBufferSize s <= 1)%Z ->
  Forall2 (fun tk batch =>
             exists extra,
               batch = convertToProto s (incomingMetric tk) :: extra)
    channel (flushes (snd r))
  /\ datapoints (fst r) = [].
Proof.
  intros Hrun Hmax.
  apply (run_loop makeEmissionTimeMetric makeMetricsSentMetric
           makeMetricsDroppedMetric) in Hrun as [-> _].
  match goal with
  | |- context [loop ?st channel] =>
      exact (loop_unbuffered channel st eq_refl Hmax)
  end.
Qed.

Lemma loop_quiet (t0 : Time) (I M : Z) (channel : list Tick) :
  forall st : RunState,
    interval (handler st) = I ->
    maxBufferSize (handler st) = M ->
    (t0 <= lastEmission st)%Z ->
    (t0 <= lastHandlerMetricsEmission st)%Z ->
    (Z.of_nat (length (datapoints st)) < M)%Z ->
    Forall (quiet t0 (I * 1000000000)) channel ->
    Forall (fun batch => Z.of_nat (length batch) = M)
      (flushes (snd (loop st channel)))
    /\ (Z.of_nat (length (datapoints (fst (loop st channel)))) < M)%Z
    /\ (Z.of_nat (length channel) + Z.of_nat (length (datapoints st))
        = M * Z.of_nat (length (flushes (snd (loop st channel))))
          + Z.of_nat (length (datapoints (fst (loop st channel)))))%Z
    /\ Forall (fun out => selfReported out = false) (snd (loop st channel)).
Proof.
  induction channel as [|tk more IH];
    intros st Hint Hmax Hlast Hanchor Hbuf Hquiet.
  - simpl. repeat split; try constructor; try assumption. lia.
  - rewrite loop_cons. simpl fst. simpl snd.
    apply Forall_cons in Hquiet as [(Hq1 & Hq2 & Hq3) Hquiet].
    assert (Hfire : emitHandlerIntervalPassed st tk = false).
    { unfold emitHandlerIntervalPassed. rewrite intervalPassed_Z, Hint.
      apply Z.leb_gt. lia. }
    assert (Htime : emitIntervalPassed st tk = false).
    { unfold emitIntervalPassed. rewrite intervalPassed_Z, Hint.
      apply Z.leb_gt. lia. }
    assert (Hlen : Z.of_nat (length (emit_batch st tk))
                   = (Z.of_nat (length (datapoints st)) + 1)%Z).
    { rewrite emit_batch_length, Hfire. lia. }
    destruct (body_config makeEmissionTimeMetric makeMetricsSentMetric
                makeMetricsDroppedMetric st tk) as (Hint' & Hmax' & _).
    pose proof (body_datapoints makeEmissionTimeMetric makeMetricsSentMetric
                  makeMetricsDroppedMetric st tk) as Hdps.
    pose proof (body_flushed makeEmissionTimeMetric makeMetricsSentMetric
                  makeMetricsDroppedMetric st tk) as Hfl.
    assert (Hemit : doEmit st tk
                    = (M <=? Z.of_nat (length (datapoints st)) + 1)%Z).
    { unfold doEmit, bufferSizeLimitReached. rewrite Htime, Hmax. simpl.
      unfold arrived. rewrite length_app. simpl. f_equal. lia. }
    destruct (IH (fst (body st tk))) as (Hall & Hend & Hcount & Hnone).
    { now rewrite Hint'. }
    { now rewrite Hmax'. }
    { rewrite body_lastEmission. destruct (doEmit st tk); lia. }
    { rewrite body_lastHandlerMetricsEmission, Hfire. exact Hanchor. }
    { rewrite Hdps, Hemit.
      destruct (M <=? Z.of_nat (length (datapoints st)) + 1)%Z eqn:Hfull.
      - simpl. lia.
      - apply Z.leb_gt in Hfull. lia. }
    { exact Hquiet. }
    rewrite flushes_cons, Hfl. rewrite Hdps in Hcount.
    rewrite Hemit in *.
    destruct (M <=? Z.of_nat (length (datapoints st)) + 1)%Z eqn:Hfull.
    + apply Z.leb_le in Hfull. simpl in *.
      repeat split.
      * constructor; [lia | exact Hall].
      * exact Hend.
      * lia.
      * constructor; [now rewrite body_selfReported | exact Hnone].
    + apply Z.leb_gt in Hfull. simpl in *.
      repeat split.
      * exact Hall.
      * exact Hend.
      * lia.
      * constructor; [now rewrite body_selfReported | exact Hnone].
Qed.

(** X13. While no interval elapses since the start (every check of the
    metrics received comes less than an interval after it), a run with
    [maxBufferSize] at least 1 flushes on size alone: every flushed batch
    holds exactly [maxBufferSize] data points, the handler's own metrics are
    never reported, fewer than [maxBufferSize] data points stay in the
    buffer, and the metrics received are those flushed and those still
    buffered. *)
Theorem Run_flushes_full_batches (s : SignalFx) (t0 : Time)
    (channel : list Tick) (r : RunState * list StepOut) :
  run s t0 channel = Some r ->
  (1 <= maxBufferSize s)%Z ->
  Forall (quiet t0 (interval s * 1000000000)) channel ->
  Forall (fun batch => Z.of_nat (length batch) = maxBufferSize s)
    (flushes (snd r))
  /\ (Z.of_nat (length (datapoints (fst r))) < maxBufferSize s)%Z
  /\ (Z.of_nat (length channel)
      = maxBufferSize s * Z.of_nat (length (flushes (snd r)))
        + Z.of_nat (length (datapoints (fst r))))%Z
  /\ Forall (fun out => selfReported out = false) (snd r).
Proof.
  intros Hrun Hmax Hquiet.
  apply (run_loop makeEmissionTimeMetric makeMetricsSentMetric
           makeMetricsDroppedMetric) in Hrun as [-> _].
  match goal with
  | |- context [loop ?st channel] =>
      destruct (loop_quiet t0 (interval s) (maxBufferSize s) channel st)
        as (Hall & Hend & Hcount & Hnone);
        simpl; try reflexivity; try lia; try exact Hquiet
  end.
  simpl in Hcount. repeat split; try assumption. lia.
Qed.

End Cadence.

(** Five metrics within half a second into a buffer of size 5. *)
Definition five_ticks : list Tick :=
  [Scenario.tick_at 100 "a"; Scenario.tick_at 200 "b";
   Scenario.tick_at 300 "c"; Scenario.tick_at 400 "d";
   Scenario.tick_at 500 "e"].

Lemma Run_unbuffered_witness :
  Forall2 (fun tk batch =>
             exists extra,
               batch = convertToProto (Scenario.handler_with 1 "token")
                         (incomingMetric tk) :: extra)
    Scenario.four_ticks
    (flushes (snd (Run_loop Scenario.timing Scenario.sent Scenario.dropped
                     (Cases.start (Scenario.handler_with 1 "token"))
                     Scenario.four_ticks)))
  /\ datapoints (fst (Run_loop Scenario.timing Scenario.sent
                        Scenario.dropped
                        (Cases.start (Scenario.handler_with 1 "token"))
                        Scenario.four_ticks)) = [].
Proof.
  apply (Run_unbuffered Scenario.timing Scenario.sent Scenario.dropped
           (Scenario.handler_with 1 "token") 0%Z Scenario.four_ticks);
    [reflexivity | simpl; lia].
Defined.

Lemma Run_flushes_full_batches_witness :
  Forall (fun batch => Z.of_nat (length batch)
                       = maxBufferSize (Scenario.handler_with 5 "token"))
    (flushes (snd (Run_loop Scenario.timing Scenario.sent Scenario.dropped
                     (Cases.start (Scenario.handler_with 5 "token"))
                     five_ticks)))
  /\ (Z.of_nat (length (datapoints
                          (fst (Run_loop Scenario.timing Scenario.sent
                                  Scenario.dropped
                                  (Cases.start
                                     (Scenario.handler_with 5 "token"))
                                  five_ticks))))
      < maxBufferSize (Scenario.handler_with 5 "token"))%Z
  /\ (Z.of_nat (length five_ticks)
      = maxBufferSize (Scenario.handler_with 5 "token")
        * Z.of_nat (length (flushes
                              (snd (Run_loop Scenario.timing Scenario.sent
                                      Scenario.dropped
                                      (Cases.start
                                         (Scenario.handler_with 5 "token"))
                                      five_ticks))))
        + Z.of_nat (length (datapoints
                              (fst (Run_loop Scenario.timing Scenario.sent
                                      Scenario.dropped
                                      (Cases.start
                                         (Scenario.handler_with 5 "token"))
                                      five_ticks)))))%Z
  /\ Forall (fun out => selfReported out = false)
       (snd (Run_loop Scenario.timing Scenario.sent Scenario.dropped
               (Cases.start (Scenario.handler_with 5 "token")) five_ticks)).
Proof.
  apply (Run_flushes_full_batches Scenario.timing Scenario.sent
           Scenario.dropped (Scenario.handler_with 5 "token") 0%Z
           five_ticks).
  - reflexivity.
  - simpl. lia.
  - unfold five_ticks, quiet.
    repeat (apply List.Forall_cons; [vm_compute; repeat split; discriminate
                                    |]).
    apply List.Forall_nil.
Defined.
